(** * hub: the [create] command (commands/create.go)

    A shallow embedding of [create], the function behind [hub create]: it
    resolves the name of the repository to create, looks it up on the
    hosting service, creates it unless it is already there, and queues the
    [git remote add] that binds the working copy's origin to it.

    [create] is one Go function that talks to four packages ([git],
    [github], [ui], [utils]) and to the argument object.  These are
    declared outside create.go and are modelled at their interface:
    - the pure helpers of package [github] are the fields of the class
      [Github], over which every theorem is universally quantified;
    - what the outside world answers (git, the configuration, the hosting
      service, the local repository) is a record [World];
    - every call that reaches the outside world, prints, or queues a
      command is recorded, in order, in a trace of [event]s, and
      [utils.Check] on a non-nil error ends the run. *)

From Stdlib Require Import String Ascii List Bool Arith Lia.
Import ListNotations.

Open Scope string_scope.
Open Scope list_scope.

(** ** Go's [strings] package, on byte strings *)

Module strings.

Fixpoint drop (n : nat) (s : string) : string :=
  match n, s with
  | 0, _ => s
  | S _, EmptyString => EmptyString
  | S n', String _ s' => drop n' s'
  end.

(** [strings.HasPrefix(s, prefix)]. *)
Fixpoint HasPrefix (s prefix : string) {struct prefix} : bool :=
  match prefix with
  | EmptyString => true
  | String a prefix' =>
      match s with
      | EmptyString => false
      | String b s' => Ascii.eqb a b && HasPrefix s' prefix'
      end
  end.

(** [Cut s sep]: the text before and after the first instance of [sep]
    in [s], if there is one ([sep] is not empty). *)
Fixpoint Cut (s sep : string) : option (string * string) :=
  if HasPrefix s sep then Some (EmptyString, drop (String.length sep) s)
  else match s with
       | EmptyString => None
       | String c s' =>
           match Cut s' sep with
           | Some (before, after) => Some (String c before, after)
           | None => None
           end
       end.

(** [strings.Contains(s, substr)]. *)
Definition Contains (s substr : string) : bool :=
  match Cut s substr with Some _ => true | None => false end.

(** [strings.SplitN(s, sep, n)] for [n >= 0] and a non-empty [sep]: at
    most [n] pieces, the last one being the unsplit remainder. *)
Fixpoint SplitN (s sep : string) (n : nat) : list string :=
  match n with
  | 0 => []
  | S n' =>
      match n' with
      | 0 => [s]
      | S _ =>
          match Cut s sep with
          | Some (before, after) => before :: SplitN after sep n'
          | None => [s]
          end
      end
  end.

(** Number of occurrences of the byte [c] in [s]. *)
Fixpoint count (c : ascii) (s : string) : nat :=
  match s with
  | EmptyString => 0
  | String d s' => (if Ascii.eqb d c then 1 else 0) + count c s'
  end.

End strings.

(** ** Data *)

(** Go's [error] values, identified with their message. *)
Definition error : Type := string.

(** A Go result pair [(v, err)]: the value when [err == nil], the error
    otherwise. *)
Definition result (A : Type) : Type := (A + error)%type.

(** Modelled from the spec: the struct [github.Project] is declared outside
    create.go; the data model gives a project identity an owner, a name and
    a host, and create.go reads the field [Host]. *)
Module Project.
Record t : Type := mk { Owner : string; Name : string; Host : string }.
End Project.

(** [github.Host], the entry of the configuration that [DefaultHost]
    returns; create.go reads its fields [User] and [Host]. *)
Module Host.
Record t : Type := mk { Host : string; User : string }.
End Host.

(** [github.Repository], the record of the hosting service; create.go reads
    [FullName] and [Private]. *)
Module Repository.
Record t : Type := mk { FullName : string; Private : bool }.
End Repository.

(** [github.Remote]; create.go reads [Name] and [PushURL] (the URL is kept
    as the text that [%s] prints). *)
Module Remote.
Record t : Type := mk { Name : string; PushURL : string }.
End Remote.

(** The command's arguments: the positional parameters and the global
    dry-run switch [Noop]. *)
Record Args : Type := mkArgs { Params : list string; Noop : bool }.

Definition IsParamsEmpty (args : Args) : bool :=
  match Params args with [] => true | _ :: _ => false end.

(** [args.FirstParam()]; create.go calls it only when the parameters are
    not empty. *)
Definition FirstParam (args : Args) : string := hd EmptyString (Params args).

(** The package-level flag variables of create.go. *)
Record Flags : Type := mkFlags {
  flagCreatePrivate : bool;
  flagCreateBrowse : bool;
  flagCreateCopy : bool;
  flagCreateDescription : string;
  flagCreateHomepage : string
}.

(** The pure helpers of package [github] that [create] calls.  They are
    declared outside create.go and are taken as parameters. *)
Class Github : Type := {
  NewProject : string -> string -> string -> Project.t;
  SameAs : Project.t -> Project.t -> bool;
  GitURL : Project.t -> string -> string -> bool -> string;
  WebURL : Project.t -> string -> string -> string -> string;
  SanitizeProjectName : string -> string;
  FormatError : string -> error -> error;
  RemoteProject : Remote.t -> result Project.t
}.

(** The objects whose methods [create] calls. *)
Record Config : Type := { DefaultHost : result Host.t }.

Record Client : Type := {
  Repository : Project.t -> result Repository.t;
  CreateRepository :
    Project.t -> string -> string -> bool -> result Repository.t
}.

Record GitHubRepo : Type := { RemoteByName : string -> result Remote.t }.

(** What the outside world answers during one run. *)
Record World : Type := {
  git_Dir : result string;
  git_WorkdirName : result string;
  github_CurrentConfig : Config;
  github_NewClient : string -> Client;
  github_LocalRepo : result GitHubRepo
}.

(** ** Effects *)

(** The calls of [create] that leave the process or act on its output, in
    the order in which they are made. *)
Inductive event : Type :=
| EGitDir
| EGitWorkdirName
| EDefaultHost
| ERepository (project : Project.t)
| ECreateRepository (project : Project.t) (description homepage : string)
    (private : bool)
| ELocalRepo
| ERemoteByName (name : string)
| EUiError (msg : string)
| EArgsBefore (argv : list string)
| EArgsNoForward
| EPrintBrowseOrCopy (url : string) (browse copy : bool).

Inductive outcome (A : Type) : Type :=
| Ok (a : A)
| Exit (err : error).

Arguments Ok {A} a.
Arguments Exit {A} err.

(** A computation: how it ends and the events it caused. *)
Definition M (A : Type) : Type := (outcome A * list event)%type.

Definition ret {A : Type} (a : A) : M A := (Ok a, []).

Definition andThen {A B : Type} (m : M A) (k : A -> M B) : M B :=
  match m with
  | (Ok a, t) => let (r, t') := k a in (r, t ++ t')
  | (Exit err, t) => (Exit err, t)
  end.

Definition emit (e : event) : M unit := (Ok tt, [e]).

Declare Scope run_scope.
Delimit Scope run_scope with run.
Notation "x <- m ;; k" := (andThen m (fun x => k))
  (at level 61, m at next level, right associativity) : run_scope.
Notation "m ;; k" := (andThen m (fun _ => k))
  (at level 61, right associativity) : run_scope.
Open Scope run_scope.

(** Modelled from the spec: [utils.Check] is declared outside create.go;
    the error taxonomy makes every checked error fatal: on a non-nil error
    the whole operation aborts there with that error ([exit]), on nil
    nothing happens. *)
Definition exit {A : Type} (err : error) : M A := (Exit err, []).

Definition utils_Check (err : option error) : M unit :=
  match err with
  | None => ret tt
  | Some e => exit e
  end.

(** The Go idiom [v, err := f(); utils.Check(err)]. *)
Definition checked {A : Type} (r : result A) : M A :=
  match r with
  | inl v => utils_Check None ;; ret v
  | inr err => exit err
  end.

(** ** The command *)

(** [regexp.MustCompile("^[^-]").MatchString(s)]: [s] starts with a
    character other than [-]. *)
Definition reg_MatchString (s : string) : bool :=
  match s with
  | EmptyString => false
  | String c _ => negb (Ascii.eqb c "-")
  end.

(** The double quote, for the one message that contains it. *)
Definition dquote : string := String (ascii_of_nat 34) EmptyString.

(** The text of the warning of line 146 (the literal is a raw string: its
    last two characters are a backslash and an n). *)
Definition originWarning (originRemote : Remote.t) : string :=
  "A git remote named " ++ dquote ++ Remote.Name originRemote ++ dquote
  ++ " already exists and is set to push to '"
  ++ Remote.PushURL originRemote ++ "'.\n".

(** The errors that create.go builds with [fmt.Errorf]. *)
Definition notInsideGit : string :=
  "'create' must be run from inside a git repository".

Definition invalidArgument (arg : string) : string :=
  "invalid argument: " ++ arg.

Definition alreadyPublic (fullName : string) : string :=
  "Repository '" ++ fullName ++ "' already exists and is public".

Section Create.

Context {G : Github}.
Variable w : World.
Variable flags : Flags.
Variable args : Args.

(** Lines 83-95: the requested name, from the first parameter or from the
    name of the working directory. *)
Definition resolveName : M string :=
  if IsParamsEmpty args then
    emit EGitWorkdirName ;;
    dirName <- checked (git_WorkdirName w) ;;
    ret (SanitizeProjectName dirName)
  else
    (if negb (reg_MatchString (FirstParam args))
     then utils_Check (Some (invalidArgument (FirstParam args)))
     else ret tt) ;;
    ret (FirstParam args).

(** Lines 97-101: the default host of the current configuration; a
    failure is checked after [github.FormatError] has wrapped it. *)
Definition defaultHost : M Host.t :=
  let config := github_CurrentConfig w in
  emit EDefaultHost ;;
  match DefaultHost config with
  | inl host => ret host
  | inr err => exit (FormatError "creating repository" err)
  end.

(** Lines 103-108: the owner and the name handed to [NewProject]. *)
Definition ownerAndName (host : Host.t) (newRepoName : string)
  : string * string :=
  let owner := Host.User host in
  if strings.Contains newRepoName "/" then
    let split := strings.SplitN newRepoName "/" 2 in
    (nth 0 split EmptyString, nth 1 split EmptyString)
  else (owner, newRepoName).

(** Lines 103-110: the project to create. *)
Definition fromRawName (host : Host.t) (newRepoName : string) : Project.t :=
  let (owner, newRepoName) := ownerAndName host newRepoName in
  NewProject owner newRepoName (Host.Host host).

(** Lines 77-110: everything up to the desired project. *)
Definition desiredProject : M Project.t :=
  emit EGitDir ;;
  match git_Dir w with
  | inl _ => ret tt
  | inr _ => utils_Check (Some notInsideGit)
  end ;;
  newRepoName <- resolveName ;;
  host <- defaultHost ;;
  ret (fromRawName host newRepoName).

(** Lines 113-129: the lookup.  The result is the value of [repo] ([None]
    for nil) and of [project] after the block. *)
Definition lookup (gh : Client) (project : Project.t)
  : M (option Repository.t * Project.t) :=
  emit (ERepository project) ;;
  match Repository gh project with
  | inl repo =>
      let foundProject :=
        NewProject (Repository.FullName repo) "" (Project.Host project) in
      if SameAs foundProject project then
        if negb (Repository.Private repo) && flagCreatePrivate flags then
          utils_Check (Some (alreadyPublic (Repository.FullName repo))) ;;
          ret (Some repo, project)
        else
          emit (EUiError "Existing repository detected") ;;
          ret (Some repo, foundProject)
      else ret (None, project)
  | inr _ => ret (None, project)
  end.

(** Lines 131-137: the creation, when [repo] is nil. *)
Definition createIfMissing (gh : Client) (repo : option Repository.t)
    (project : Project.t) : M Project.t :=
  match repo with
  | None =>
      if negb (Noop args) then
        emit (ECreateRepository project (flagCreateDescription flags)
                (flagCreateHomepage flags) (flagCreatePrivate flags)) ;;
        repo <- checked (CreateRepository gh project
                           (flagCreateDescription flags)
                           (flagCreateHomepage flags)
                           (flagCreatePrivate flags)) ;;
        ret (NewProject (Repository.FullName repo) "" (Project.Host project))
      else ret project
  | Some _ => ret project
  end.

(** Lines 111-137: the reconciliation of the desired project with the
    hosting service; the result is the final value of [project]. *)
Definition reconcile (project : Project.t) : M Project.t :=
  let gh := github_NewClient w (Project.Host project) in
  found <- lookup gh project ;;
  createIfMissing gh (fst found) (snd found).

(** Lines 142-151: the binding of the origin remote. *)
Definition bindOrigin (localRepo : GitHubRepo) (project : Project.t)
  : M unit :=
  let originName := "origin" in
  emit (ERemoteByName originName) ;;
  match RemoteByName localRepo originName with
  | inl originRemote =>
      match RemoteProject originRemote with
      | inl originProject =>
          if negb (SameAs originProject project)
          then emit (EUiError (originWarning originRemote))
          else ret tt
      | inr _ => emit (EUiError (originWarning originRemote))
      end
  | inr _ =>
      let url := GitURL project "" "" true in
      emit (EArgsBefore ["git"; "remote"; "add"; "-f"; originName; url])
  end.

(** Lines 139-155: the local repository, the origin remote and the URL
    that is shown. *)
Definition bindAndShow (project : Project.t) : M unit :=
  emit ELocalRepo ;;
  localRepo <- checked (github_LocalRepo w) ;;
  bindOrigin localRepo project ;;
  let webUrl := WebURL project "" "" "" in
  emit EArgsNoForward ;;
  emit (EPrintBrowseOrCopy webUrl (flagCreateBrowse flags)
          (flagCreateCopy flags)).

(** Lines 77-137: the final value of [project]. *)
Definition finalProject : M Project.t :=
  project <- desiredProject ;;
  reconcile project.

(** [create], lines 76-156. *)
Definition create : M unit :=
  project <- finalProject ;;
  bindAndShow project.

End Create.

(** ** What a run did *)

Definition isCreateRepository (e : event) : bool :=
  match e with ECreateRepository _ _ _ _ => true | _ => false end.

(** The calls that change something: creating the repository on the
    hosting service and queueing a git command. *)
Definition isMutation (e : event) : bool :=
  match e with
  | ECreateRepository _ _ _ _ | EArgsBefore _ => true
  | _ => false
  end.

(** Number of gateway create calls in a trace. *)
Definition createCalls (t : list event) : nat :=
  List.length (filter isCreateRepository t).

(** The spec's [created] of a reconciliation: it ended normally and called
    the gateway's create operation (create.go keeps no such flag). *)
Definition created {A : Type} (run : M A) : bool :=
  match run with
  | (Ok _, t) => existsb isCreateRepository t
  | (Exit _, _) => false
  end.

(** [after t run]: [run], preceded by the events [t]. *)
Definition after {A : Type} (t : list event) (run : M A) : M A :=
  (fst run, t ++ snd run).

(** ** Vocabulary of the statements *)

(** The project that create.go builds from a record of the hosting
    service: [github.NewProject(repo.FullName, "", project.Host)]. *)
Definition projectOf {G : Github} (repo : Repository.t)
    (project : Project.t) : Project.t :=
  NewProject (Repository.FullName repo) "" (Project.Host project).

(** No usable record: an error of the lookup, or a record of another
    project. *)
Definition noUsableRecord {G : Github} (gh : Client)
    (project : Project.t) : Prop :=
  (exists err, Repository gh project = inr err)
  \/ (exists repo,
        Repository gh project = inl repo
        /\ SameAs (projectOf repo project) project = false).

(** The origin remote of the working copy points elsewhere: its URL does
    not parse into a project, or parses into a project that is not
    [SameAs] the final one. *)
Definition pointsElsewhere {G : Github} (originRemote : Remote.t)
    (project : Project.t) : Prop :=
  (exists err, RemoteProject originRemote = inr err)
  \/ (exists originProject,
        RemoteProject originRemote = inl originProject
        /\ SameAs originProject project = false).

Definition addOrigin {G : Github} (project : Project.t) : list string :=
  ["git"; "remote"; "add"; "-f"; "origin"; GitURL project "" "" true].

(** ** A reference implementation of the collaborators

    Used to run [create] on concrete inputs. *)

Module Ref.

Definition lowerAscii (c : ascii) : ascii :=
  let n := nat_of_ascii c in
  if Nat.leb 65 n && Nat.leb n 90 then ascii_of_nat (n + 32) else c.

Fixpoint lower (s : string) : string :=
  match s with
  | EmptyString => EmptyString
  | String c s' => String (lowerAscii c) (lower s')
  end.

(** Modelled from the spec: [github.NewProject] is declared outside
    create.go.  With no explicit name part, owner and name are parsed
    from the full name [owner/name] (section 4.3, step 2); otherwise the
    parts are taken as given: what comes before the first [/] of the raw
    name becomes the owner and everything after it becomes the name,
    which is not split again (sections 4.2 and 8). *)
Definition NewProject (owner name host : string) : Project.t :=
  match name, strings.Cut owner "/" with
  | EmptyString, Some (o, n) => Project.mk o n host
  | _, _ => Project.mk owner name host
  end.

(** Modelled from the spec: [Project.SameAs] is declared outside
    create.go.  Two identities are the same project iff owner and name
    match case-insensitively and they share a host. *)
Definition SameAs (p q : Project.t) : bool :=
  String.eqb (lower (Project.Owner p)) (lower (Project.Owner q))
  && String.eqb (lower (Project.Name p)) (lower (Project.Name q))
  && String.eqb (Project.Host p) (Project.Host q).

(** Modelled from the spec: [Project.GitURL] is declared outside
    create.go; the form is the one of the command's usage text,
    [git@github.com:USER/REPO.git]. *)
Definition GitURL (p : Project.t) (name owner : string) (isSSH : bool)
  : string :=
  "git@" ++ Project.Host p ++ ":" ++ Project.Owner p ++ "/"
  ++ Project.Name p ++ ".git".

(** Modelled from the spec: [Project.WebURL] is declared outside
    create.go; the web-viewable URL of the project. *)
Definition WebURL (p : Project.t) (name owner path : string) : string :=
  "https://" ++ Project.Host p ++ "/" ++ Project.Owner p ++ "/"
  ++ Project.Name p.

(** Modelled from the spec: [github.SanitizeProjectName] is declared
    outside create.go; a pure string transform that lowercases (the
    allowed character set is left to the collaborator). *)
Definition SanitizeProjectName (name : string) : string := lower name.

(** Modelled from the spec: [github.FormatError] is declared outside
    create.go; it wraps the error of the named action. *)
Definition FormatError (action : string) (err : error) : string :=
  "Error " ++ action ++ ": " ++ err.

(** Modelled from the spec: [Remote.Project] is declared outside
    create.go; the push URL [scheme://host/owner/name] is decomposed into
    host, owner and name, and anything else is an error. *)
Definition RemoteProject (r : Remote.t) : result Project.t :=
  match strings.Cut (Remote.PushURL r) "://" with
  | Some (_, rest) =>
      match strings.Cut rest "/" with
      | Some (host, path) =>
          match strings.Cut path "/" with
          | Some (owner, name) => inl (Project.mk owner name host)
          | None => inr "Invalid GitHub URL"
          end
      | None => inr "Invalid GitHub URL"
      end
  | None => inr "Invalid GitHub URL"
  end.

#[export] Instance github : Github := {
  NewProject := NewProject;
  SameAs := SameAs;
  GitURL := GitURL;
  WebURL := WebURL;
  SanitizeProjectName := SanitizeProjectName;
  FormatError := FormatError;
  RemoteProject := RemoteProject
}.

(** A hosting service that knows the given repositories: lookup is by the
    lowercased full name, and creation answers the full name asked for. *)
Definition fullName (p : Project.t) : string :=
  Project.Owner p ++ "/" ++ Project.Name p.

Fixpoint find (known : list Repository.t) (p : Project.t)
  : result Repository.t :=
  match known with
  | [] => inr "Not Found"
  | r :: rest =>
      if String.eqb (lower (Repository.FullName r)) (lower (fullName p))
      then inl r else find rest p
  end.

Definition client (known : list Repository.t) : Client := {|
  Repository := find known;
  CreateRepository := fun p _ _ private =>
    inl (Repository.mk (fullName p) private)
|}.

(** A local repository with the given remotes. *)
Fixpoint remoteByName (remotes : list Remote.t) (name : string)
  : result Remote.t :=
  match remotes with
  | [] => inr "No git remote with that name"
  | r :: rest =>
      if String.eqb (Remote.Name r) name then inl r
      else remoteByName rest name
  end.

Definition localRepo (remotes : list Remote.t) : GitHubRepo :=
  {| RemoteByName := remoteByName remotes |}.

(** A run inside the working copy [widgets] of the user [me] on
    github.com. *)
Definition world (known : list Repository.t) (remotes : list Remote.t)
  : World := {|
  git_Dir := inl ".git";
  git_WorkdirName := inl "Widgets";
  github_CurrentConfig :=
    {| DefaultHost := inl (Host.mk "github.com" "me") |};
  github_NewClient := fun _ => client known;
  github_LocalRepo := inl (localRepo remotes)
|}.

(** The same run outside any git working copy. *)
Definition outside (known : list Repository.t) : World := {|
  git_Dir := inr "fatal: not a git repository";
  git_WorkdirName := inr "fatal: not a git repository";
  github_CurrentConfig :=
    {| DefaultHost := inl (Host.mk "github.com" "me") |};
  github_NewClient := fun _ => client known;
  github_LocalRepo := inr "fatal: not a git repository"
|}.

Definition noFlags : Flags := mkFlags false false false "" "".
Definition privateFlag : Flags := mkFlags true false false "" "".

Definition widgets : Project.t := Project.mk "myorg" "widgets" "github.com".

End Ref.

(** A hosting service whose lookup fails with the given error, whatever is
    asked. *)
Definition failingLookup (err : error) : Client := {|
  Repository := fun _ => inr err;
  CreateRepository := CreateRepository (Ref.client [])
|}.

Definition worldWith (gh : Client) : World := {|
  git_Dir := inl ".git";
  git_WorkdirName := inl "Widgets";
  github_CurrentConfig :=
    {| DefaultHost := inl (Host.mk "github.com" "me") |};
  github_NewClient := fun _ => gh;
  github_LocalRepo := inl (Ref.localRepo [])
|}.

Definition unrelatedOrigin : Remote.t :=
  Remote.mk "origin" "https://github.com/other/unrelated".

Definition matchingOrigin : Remote.t :=
  Remote.mk "origin" "https://github.com/MyOrg/Widgets".

Definition unparsableOrigin : Remote.t :=
  Remote.mk "origin" "/srv/git/widgets.git".

(** ** The ways in which each part of [create] can end *)

Definition isArgsBefore (e : event) : bool :=
  match e with EArgsBefore _ => true | _ => false end.

Definition isShow (e : event) : bool :=
  match e with EPrintBrowseOrCopy _ _ _ => true | _ => false end.

Definition isRepository (e : event) : bool :=
  match e with ERepository _ => true | _ => false end.

(** Lines 83-95, when they give a name. *)
Inductive ResolvedName {G : Github} (w : World) (args : Args)
  : string -> list event -> Prop :=
| ResolvedWorkdir (dirName : string) :
    Params args = [] ->
    git_WorkdirName w = inl dirName ->
    ResolvedName w args (SanitizeProjectName dirName) [EGitWorkdirName]
| ResolvedExplicit (raw : string) (rest : list string) :
    Params args = raw :: rest ->
    reg_MatchString raw = true ->
    ResolvedName w args raw [].

(** Lines 77-110. *)
Inductive DesiredRun {G : Github} (w : World) (args : Args)
  : M Project.t -> Prop :=
| DesiredNotInGit (err : error) :
    git_Dir w = inr err ->
    DesiredRun w args (Exit notInsideGit, [EGitDir])
| DesiredNoWorkdir (dir : string) (err : error) :
    git_Dir w = inl dir ->
    Params args = [] ->
    git_WorkdirName w = inr err ->
    DesiredRun w args (Exit err, [EGitDir; EGitWorkdirName])
| DesiredInvalid (dir arg : string) (rest : list string) :
    git_Dir w = inl dir ->
    Params args = arg :: rest ->
    reg_MatchString arg = false ->
    DesiredRun w args (Exit (invalidArgument arg), [EGitDir])
| DesiredNoHost (dir raw : string) (t : list event) (err : error) :
    git_Dir w = inl dir ->
    ResolvedName w args raw t ->
    DefaultHost (github_CurrentConfig w) = inr err ->
    DesiredRun w args
      (Exit (FormatError "creating repository" err),
       EGitDir :: t ++ [EDefaultHost])
| DesiredOk (dir raw : string) (t : list event) (host : Host.t) :
    git_Dir w = inl dir ->
    ResolvedName w args raw t ->
    DefaultHost (github_CurrentConfig w) = inl host ->
    DesiredRun w args
      (Ok (fromRawName host raw), EGitDir :: t ++ [EDefaultHost]).

(** The create call of lines 133. *)
Definition createCall (flags : Flags) (project : Project.t) : event :=
  ECreateRepository project (flagCreateDescription flags)
    (flagCreateHomepage flags) (flagCreatePrivate flags).

(** Lines 111-137. *)
Inductive ReconcileRun {G : Github} (w : World) (flags : Flags)
    (args : Args) (project : Project.t) : M Project.t -> Prop :=
| ReconcileReuse (repo : Repository.t) :
    Repository (github_NewClient w (Project.Host project)) project
    = inl repo ->
    SameAs (projectOf repo project) project = true ->
    negb (Repository.Private repo) && flagCreatePrivate flags = false ->
    ReconcileRun w flags args project
      (Ok (projectOf repo project),
       [ERepository project; EUiError "Existing repository detected"])
| ReconcileConflict (repo : Repository.t) :
    Repository (github_NewClient w (Project.Host project)) project
    = inl repo ->
    SameAs (projectOf repo project) project = true ->
    Repository.Private repo = false ->
    flagCreatePrivate flags = true ->
    ReconcileRun w flags args project
      (Exit (alreadyPublic (Repository.FullName repo)),
       [ERepository project])
| ReconcileDryRun :
    noUsableRecord (github_NewClient w (Project.Host project)) project ->
    Noop args = true ->
    ReconcileRun w flags args project (Ok project, [ERepository project])
| ReconcileCreated (repo : Repository.t) :
    noUsableRecord (github_NewClient w (Project.Host project)) project ->
    Noop args = false ->
    CreateRepository (github_NewClient w (Project.Host project)) project
      (flagCreateDescription flags) (flagCreateHomepage flags)
      (flagCreatePrivate flags) = inl repo ->
    ReconcileRun w flags args project
      (Ok (projectOf repo project),
       [ERepository project; createCall flags project])
| ReconcileCreateFailed (err : error) :
    noUsableRecord (github_NewClient w (Project.Host project)) project ->
    Noop args = false ->
    CreateRepository (github_NewClient w (Project.Host project)) project
      (flagCreateDescription flags) (flagCreateHomepage flags)
      (flagCreatePrivate flags) = inr err ->
    ReconcileRun w flags args project
      (Exit err, [ERepository project; createCall flags project]).

(** Lines 142-151. *)
Inductive BindRun {G : Github} (localRepo : GitHubRepo)
    (project : Project.t) : list event -> Prop :=
| BindConflict (originRemote : Remote.t) :
    RemoteByName localRepo "origin" = inl originRemote ->
    pointsElsewhere originRemote project ->
    BindRun localRepo project
      [ERemoteByName "origin"; EUiError (originWarning originRemote)]
| BindMatch (originRemote : Remote.t) (originProject : Project.t) :
    RemoteByName localRepo "origin" = inl originRemote ->
    RemoteProject originRemote = inl originProject ->
    SameAs originProject project = true ->
    BindRun localRepo project [ERemoteByName "origin"]
| BindAdd (err : error) :
    RemoteByName localRepo "origin" = inr err ->
    BindRun localRepo project
      [ERemoteByName "origin"; EArgsBefore (addOrigin project)].

(** The last two events of a run that ends normally. *)
Definition showEvents {G : Github} (flags : Flags) (project : Project.t)
  : list event :=
  [EArgsNoForward;
   EPrintBrowseOrCopy (WebURL project "" "" "") (flagCreateBrowse flags)
     (flagCreateCopy flags)].

(** Lines 139-155. *)
Inductive ShowRun {G : Github} (w : World) (flags : Flags)
    (project : Project.t) : M unit -> Prop :=
| ShowNoLocalRepo (err : error) :
    github_LocalRepo w = inr err ->
    ShowRun w flags project (Exit err, [ELocalRepo])
| ShowOk (localRepo : GitHubRepo) (t : list event) :
    github_LocalRepo w = inl localRepo ->
    BindRun localRepo project t ->
    ShowRun w flags project
      (Ok tt, ELocalRepo :: t ++ showEvents flags project).

(** [create], lines 76-156: each case records the runs of the parts and
    how they ended. *)
Inductive CreateRun {G : Github} (w : World) (flags : Flags) (args : Args)
  : M unit -> Prop :=
| CreateNoProject (err : error) (t : list event) :
    desiredProject w args = (Exit err, t) ->
    DesiredRun w args (Exit err, t) ->
    CreateRun w flags args (Exit err, t)
| CreateNoReconcile (project : Project.t) (err : error)
    (t t' : list event) :
    desiredProject w args = (Ok project, t) ->
    DesiredRun w args (Ok project, t) ->
    ReconcileRun w flags args project (Exit err, t') ->
    CreateRun w flags args (Exit err, t ++ t')
| CreateReconciled (project final : Project.t) (r : outcome unit)
    (t t' t'' : list event) :
    desiredProject w args = (Ok project, t) ->
    DesiredRun w args (Ok project, t) ->
    reconcile w flags args project = (Ok final, t') ->
    ReconcileRun w flags args project (Ok final, t') ->
    ShowRun w flags final (r, t'') ->
    CreateRun w flags args (r, t ++ t' ++ t'').

(** The fatal errors of [create], each with what causes it. *)
Inductive Fatal {G : Github} (w : World) (flags : Flags) (args : Args)
  : error -> Prop :=
| FatalNotInGit (err : error) :
    git_Dir w = inr err ->
    Fatal w flags args notInsideGit
| FatalWorkdirName (err : error) :
    Params args = [] ->
    git_WorkdirName w = inr err ->
    Fatal w flags args err
| FatalInvalidArgument (arg : string) (rest : list string) :
    Params args = arg :: rest ->
    reg_MatchString arg = false ->
    Fatal w flags args (invalidArgument arg)
| FatalNoHost (err : error) :
    DefaultHost (github_CurrentConfig w) = inr err ->
    Fatal w flags args (FormatError "creating repository" err)
| FatalAlreadyPublic (project : Project.t) (repo : Repository.t) :
    fst (desiredProject w args) = Ok project ->
    Repository (github_NewClient w (Project.Host project)) project
    = inl repo ->
    SameAs (projectOf repo project) project = true ->
    Repository.Private repo = false ->
    flagCreatePrivate flags = true ->
    Fatal w flags args (alreadyPublic (Repository.FullName repo))
| FatalCreateRepository (project : Project.t) (err : error) :
    fst (desiredProject w args) = Ok project ->
    Noop args = false ->
    CreateRepository (github_NewClient w (Project.Host project)) project
      (flagCreateDescription flags) (flagCreateHomepage flags)
      (flagCreatePrivate flags) = inr err ->
    Fatal w flags args err
| FatalLocalRepo (err : error) :
    github_LocalRepo w = inr err ->
    Fatal w flags args err.

(** Worlds in which one of the calls fails. *)
Definition failingCreate (err : error) : Client := {|
  Repository := fun _ => inr "Not Found";
  CreateRepository := fun _ _ _ _ => inr err
|}.

Definition noWorkdirName : World := {|
  git_Dir := inl ".git";
  git_WorkdirName := inr "fatal: this operation must be run in a work tree";
  github_CurrentConfig :=
    {| DefaultHost := inl (Host.mk "github.com" "me") |};
  github_NewClient := fun _ => Ref.client [];
  github_LocalRepo := inl (Ref.localRepo [])
|}.

Definition noHost : World := {|
  git_Dir := inl ".git";
  git_WorkdirName := inl "Widgets";
  github_CurrentConfig := {| DefaultHost := inr "no host configured" |};
  github_NewClient := fun _ => Ref.client [];
  github_LocalRepo := inl (Ref.localRepo [])
|}.

Definition noLocalRepo : World := {|
  git_Dir := inl ".git";
  git_WorkdirName := inl "Widgets";
  github_CurrentConfig :=
    {| DefaultHost := inl (Host.mk "github.com" "me") |};
  github_NewClient := fun _ => Ref.client [];
  github_LocalRepo := inr "fatal: not a git repository"
|}.

(** A few runs of the reference world. *)

Example run_create_new :
  create (G := Ref.github) (Ref.world [] []) Ref.noFlags (mkArgs ["myorg/widgets"] false)
  = (Ok tt,
     [EGitDir; EDefaultHost; ERepository Ref.widgets;
      ECreateRepository Ref.widgets "" "" false;
      ELocalRepo; ERemoteByName "origin";
      EArgsBefore ["git"; "remote"; "add"; "-f"; "origin";
                   "git@github.com:myorg/widgets.git"];
      EArgsNoForward;
      EPrintBrowseOrCopy "https://github.com/myorg/widgets" false false]).
Proof. reflexivity. Qed.

Example run_create_workdir :
  fst (desiredProject (G := Ref.github) (Ref.world [] []) (mkArgs [] false))
  = Ok (Project.mk "me" "widgets" "github.com").
Proof. reflexivity. Qed.

Example run_create_existing :
  create (G := Ref.github)
    (Ref.world [Repository.mk "MyOrg/Widgets" false] [])
    Ref.noFlags (mkArgs ["myorg/widgets"] false)
  = (Ok tt,
     [EGitDir; EDefaultHost; ERepository Ref.widgets;
      EUiError "Existing repository detected";
      ELocalRepo; ERemoteByName "origin";
      EArgsBefore ["git"; "remote"; "add"; "-f"; "origin";
                   "git@github.com:MyOrg/Widgets.git"];
      EArgsNoForward;
      EPrintBrowseOrCopy "https://github.com/MyOrg/Widgets" false false]).
Proof. reflexivity. Qed.

(** ** Splitting at the first slash *)

Section Slash.

Import strings.

Lemma Cut_slash_nil : Cut EmptyString "/" = None.
Proof. reflexivity. Qed.

Lemma Cut_slash_hit (s : string) :
  Cut (String "/" s) "/" = Some (EmptyString, s).
Proof. reflexivity. Qed.

Lemma Cut_slash_miss (c : ascii) (s : string) :
  Ascii.eqb c "/" = false ->
  Cut (String c s) "/"
  = match Cut s "/" with
    | Some (before, after) => Some (String c before, after)
    | None => None
    end.
Proof.
  intros Hc. cbn [Cut HasPrefix].
  rewrite Ascii.eqb_sym, Hc. reflexivity.
Qed.

Lemma Cut_slash_count (s : string) :
  Cut s "/" = None <-> count "/" s = 0.
Proof.
  induction s as [| c s IH].
  - split; reflexivity.
  - destruct (Ascii.eqb c "/") eqn:Hc.
    + apply Ascii.eqb_eq in Hc. subst c. rewrite Cut_slash_hit.
      cbn. split; discriminate.
    + rewrite (Cut_slash_miss _ _ Hc). cbn [count]. rewrite Hc. cbn.
      destruct (Cut s "/") as [[before rest] |].
      * split; [discriminate |].
        intros H0. apply IH in H0. discriminate H0.
      * split; [intros _; now apply IH | reflexivity].
Qed.

Lemma Contains_slash_count (s : string) :
  Contains s "/" = false <-> count "/" s = 0.
Proof.
  unfold Contains. rewrite <- Cut_slash_count.
  destruct (Cut s "/"); split; congruence.
Qed.

(** The cut is at the first slash: nothing before it is a slash, and the
    two parts with a slash between them are the string. *)
Lemma Cut_slash_Some (s before rest : string) :
  Cut s "/" = Some (before, rest) ->
  s = (before ++ "/" ++ rest)%string /\ count "/" before = 0
  /\ count "/" s = S (count "/" rest).
Proof.
  revert before. induction s as [| c s IH]; intros before Hcut.
  - discriminate Hcut.
  - destruct (Ascii.eqb c "/") eqn:Hc.
    + apply Ascii.eqb_eq in Hc. subst c. rewrite Cut_slash_hit in Hcut.
      injection Hcut as <- <-. repeat split.
    + rewrite (Cut_slash_miss _ _ Hc) in Hcut.
      destruct (Cut s "/") as [[b r] |] eqn:E; [| discriminate Hcut].
      injection Hcut as <- <-.
      destruct (IH b eq_refl) as (Hs & Hb & Hn).
      cbn [count append]. rewrite Hc. cbn. repeat split; try assumption.
      now rewrite Hs at 1.
Qed.

Lemma Cut_slash_app (before rest : string) :
  Contains before "/" = false ->
  Cut (before ++ "/" ++ rest) "/" = Some (before, rest).
Proof.
  rewrite Contains_slash_count.
  induction before as [| c b IH]; intros Hb.
  - reflexivity.
  - cbn [count] in Hb. destruct (Ascii.eqb c "/") eqn:Hc;
      [discriminate Hb |].
    cbn [append]. rewrite (Cut_slash_miss _ _ Hc).
    change (b ++ String "/" rest)%string with (b ++ "/" ++ rest)%string.
    now rewrite (IH Hb).
Qed.

Lemma SplitN_2 (s : string) :
  SplitN s "/" 2
  = match Cut s "/" with
    | Some (before, rest) => [before; rest]
    | None => [s]
    end.
Proof. cbn [SplitN]. now destruct (Cut s "/") as [[b r] |]. Qed.

End Slash.

(** ** Sequencing *)

Section Runs.

Context {A B : Type}.

Lemma andThen_Ok (m : M A) (k : A -> M B) (a : A) (t : list event) :
  m = (Ok a, t) -> andThen m k = after t (k a).
Proof. intros ->. unfold andThen, after. now destruct (k a). Qed.

Lemma andThen_Exit (m : M A) (k : A -> M B) (err : error)
    (t : list event) :
  m = (Exit err, t) -> andThen m k = (Exit err, t).
Proof. now intros ->. Qed.

Lemma after_after (t t' : list event) (m : M A) :
  after t (after t' m) = after (t ++ t') m.
Proof. unfold after. cbn. now rewrite app_assoc. Qed.

End Runs.

Lemma createCalls_app (t t' : list event) :
  createCalls (t ++ t') = createCalls t + createCalls t'.
Proof. unfold createCalls. now rewrite filter_app, length_app. Qed.

(** [^[^-]] fails on the empty string and on the strings that start with
    [-], and on no other. *)
Lemma reg_MatchString_false (s : string) :
  reg_MatchString s = false
  <-> s = EmptyString \/ exists s', s = String "-" s'.
Proof.
  destruct s as [| c s]; cbn.
  - split; [now left | reflexivity].
  - rewrite negb_false_iff, Ascii.eqb_eq. split.
    + intros ->. right. now exists s.
    + intros [Hs | [s' Hs]]; [discriminate Hs | now injection Hs].
Qed.

(** ** The name and the desired project *)

Section Desired.

Context {G : Github}.
Variable w : World.
Variable args : Args.

Lemma ownerAndName_slash (host : Host.t) (owner name : string) :
  strings.Contains owner "/" = false ->
  ownerAndName host (owner ++ "/" ++ name) = (owner, name).
Proof.
  intros Ho. unfold ownerAndName, strings.Contains.
  rewrite SplitN_2, (Cut_slash_app _ _ Ho). reflexivity.
Qed.

Lemma ownerAndName_plain (host : Host.t) (raw : string) :
  strings.Contains raw "/" = false ->
  ownerAndName host raw = (Host.User host, raw).
Proof. intros Hr. unfold ownerAndName. now rewrite Hr. Qed.

(** An explicit first parameter that passes the check is the raw name,
    and resolving it makes no call. *)
Lemma resolveName_explicit (raw : string) (rest : list string) :
  Params args = raw :: rest ->
  reg_MatchString raw = true ->
  resolveName w args = (Ok raw, []).
Proof.
  intros Hp Hm. unfold resolveName, IsParamsEmpty, FirstParam.
  rewrite Hp. cbn [hd]. rewrite Hm. reflexivity.
Qed.

(** Without parameters the raw name is the sanitized name of the working
    directory. *)
Lemma resolveName_workdir (dirName : string) :
  Params args = [] ->
  git_WorkdirName w = inl dirName ->
  resolveName w args = (Ok (SanitizeProjectName dirName), [EGitWorkdirName]).
Proof.
  intros Hp Hd. unfold resolveName, IsParamsEmpty.
  rewrite Hp, Hd. reflexivity.
Qed.

Lemma desiredProject_resolved (dir raw : string) (t : list event)
    (host : Host.t) :
  git_Dir w = inl dir ->
  resolveName w args = (Ok raw, t) ->
  DefaultHost (github_CurrentConfig w) = inl host ->
  desiredProject w args
  = (Ok (fromRawName host raw), EGitDir :: t ++ [EDefaultHost]).
Proof.
  intros Hd Hr Hh. unfold desiredProject, defaultHost.
  rewrite Hd, Hr, Hh. cbn. rewrite ?app_nil_r. reflexivity.
Qed.

(** Up to the desired project nothing is created and nothing is queued:
    the only calls are to git and to the configuration. *)
Lemma desiredProject_reads :
  filter isMutation (snd (desiredProject w args)) = []
  /\ createCalls (snd (desiredProject w args)) = 0.
Proof.
  unfold desiredProject, resolveName, defaultHost.
  destruct (git_Dir w); cbn; [| now split].
  destruct (IsParamsEmpty args); cbn.
  - destruct (git_WorkdirName w); cbn; [| now split].
    destruct (DefaultHost (github_CurrentConfig w)); now split.
  - destruct (reg_MatchString (FirstParam args)); cbn; [| now split].
    destruct (DefaultHost (github_CurrentConfig w)); now split.
Qed.

End Desired.

(** ** The checks that come first *)

(** C10.  Outside a git working copy ([git.Dir] fails) the run ends with
    the error "'create' must be run from inside a git repository", and the
    call to [git.Dir] is the only one made: no name is resolved, the
    configuration is not asked for a host and the hosting service is not
    contacted. *)
Theorem create_outside_git {G : Github} (w : World) (flags : Flags)
    (args : Args) (err : error) :
  git_Dir w = inr err ->
  create w flags args = (Exit notInsideGit, [EGitDir]).
Proof.
  intros Hd. unfold create, finalProject, desiredProject.
  rewrite Hd. reflexivity.
Qed.

Lemma create_outside_git_witness :
  create (G := Ref.github) (Ref.outside []) Ref.noFlags
    (mkArgs ["myorg/widgets"] false)
  = (Exit "'create' must be run from inside a git repository", [EGitDir]).
Proof.
  apply (create_outside_git (G := Ref.github) (Ref.outside []) Ref.noFlags
           (mkArgs ["myorg/widgets"] false) "fatal: not a git repository").
  reflexivity.
Defined.

(** C8, as amended.  Inside a git working copy ([git.Dir] succeeds), an
    explicit first parameter that does not match [^[^-]] ends the run with
    the error "invalid argument: <parameter>"; [git.Dir] is the only call
    made before that: no other git call, no configuration lookup and no
    network call. *)
Theorem create_invalid_argument {G : Github} (w : World) (flags : Flags)
    (args : Args) (dir arg : string) (rest : list string) :
  git_Dir w = inl dir ->
  Params args = arg :: rest ->
  reg_MatchString arg = false ->
  create w flags args = (Exit (invalidArgument arg), [EGitDir]).
Proof.
  intros Hd Hp Hm.
  unfold create, finalProject, desiredProject, resolveName, IsParamsEmpty,
    FirstParam.
  rewrite Hd, Hp. cbn [hd]. rewrite Hm. reflexivity.
Qed.

Lemma create_invalid_argument_witness :
  create (G := Ref.github) (Ref.world [] []) Ref.noFlags
    (mkArgs ["-widgets"] false)
  = (Exit "invalid argument: -widgets", [EGitDir]).
Proof.
  apply (create_invalid_argument (G := Ref.github) (Ref.world [] [])
           Ref.noFlags (mkArgs ["-widgets"] false) ".git" "-widgets" []);
    reflexivity.
Defined.

(** C8, as stated, fails: outside a git working copy a first parameter
    that starts with [-] ends the run with the error of the git check, not
    with "invalid argument", and after a call to git. *)
Lemma invalid_argument_outside_git :
  create (G := Ref.github) (Ref.outside []) Ref.noFlags
    (mkArgs ["-widgets"] false)
  = (Exit notInsideGit, [EGitDir])
  /\ notInsideGit <> invalidArgument "-widgets"
  /\ ~ (forall (w : World) (flags : Flags) (args : Args) (arg : string)
          (rest : list string),
          Params args = String "-" arg :: rest ->
          fst (create (G := Ref.github) w flags args)
          = Exit (invalidArgument (String "-" arg))).
Proof.
  split; [reflexivity |]. split; [discriminate |].
  intros Hclaim.
  specialize (Hclaim (Ref.outside []) Ref.noFlags
                (mkArgs ["-widgets"] false) "widgets" [] eq_refl).
  discriminate Hclaim.
Qed.

(** ** The owner and the name *)







(** C6.  In a run that gets as far as the construction of the desired
    project, that project is built from the raw name and from the host
    that the configuration returned: a raw name [owner/name], where
    [owner] has no [/], gives [NewProject owner name], whatever [name]
    contains; a raw name without [/] gives the owner [host.User]. *)
Theorem desired_project_split {G : Github} (w : World) (args : Args)
    (dir raw : string) (t : list event) (host : Host.t) :
  git_Dir w = inl dir ->
  resolveName w args = (Ok raw, t) ->
  DefaultHost (github_CurrentConfig w) = inl host ->
  desiredProject w args
  = (Ok (fromRawName host raw), EGitDir :: t ++ [EDefaultHost])
  /\ (forall owner name : string,
        raw = (owner ++ "/" ++ name)%string ->
        strings.Contains owner "/" = false ->
        ownerAndName host raw = (owner, name)
        /\ fromRawName host raw = NewProject owner name (Host.Host host))
  /\ (strings.Contains raw "/" = false ->
      ownerAndName host raw = (Host.User host, raw)
      /\ fromRawName host raw
         = NewProject (Host.User host) raw (Host.Host host)).
Proof.
  intros Hd Hr Hh. split; [| split].
  - now apply desiredProject_resolved with (dir := dir).
  - intros owner name -> Ho. unfold fromRawName.
    rewrite (ownerAndName_slash host owner name Ho). now split.
  - intros Hraw. unfold fromRawName.
    rewrite (ownerAndName_plain host raw Hraw). now split.
Qed.

Lemma desired_project_split_witness :
  desiredProject (G := Ref.github) (Ref.world [] [])
    (mkArgs ["org/sub/repo"] false)
  = (Ok (fromRawName (G := Ref.github) (Host.mk "github.com" "me")
           "org/sub/repo"),
     [EGitDir; EDefaultHost])
  /\ fromRawName (G := Ref.github) (Host.mk "github.com" "me") "org/sub/repo"
     = Project.mk "org" "sub/repo" "github.com"
  /\ fromRawName (G := Ref.github) (Host.mk "github.com" "me") "widgets"
     = Project.mk "me" "widgets" "github.com".
Proof.
  pose proof (desired_project_split (G := Ref.github) (Ref.world [] [])
                (mkArgs ["org/sub/repo"] false) ".git" "org/sub/repo" []
                (Host.mk "github.com" "me") eq_refl eq_refl eq_refl)
    as (Hrun & Hsplit & _).
  pose proof (desired_project_split (G := Ref.github) (Ref.world [] [])
                (mkArgs ["widgets"] false) ".git" "widgets" []
                (Host.mk "github.com" "me") eq_refl eq_refl eq_refl)
    as (_ & _ & Hplain).
  split; [exact Hrun |]. split.
  - exact (proj2 (Hsplit "org" "sub/repo" eq_refl eq_refl)).
  - exact (proj2 (Hplain eq_refl)).
Defined.

(** ** Reconciliation with the hosting service *)

Section Reconcile.

Context {G : Github}.
Variable w : World.
Variable flags : Flags.
Variable args : Args.

Lemma lookup_reuse (gh : Client) (project : Project.t)
    (repo : Repository.t) :
  Repository gh project = inl repo ->
  SameAs (projectOf repo project) project = true ->
  negb (Repository.Private repo) && flagCreatePrivate flags = false ->
  lookup flags gh project
  = (Ok (Some repo, projectOf repo project),
     [ERepository project; EUiError "Existing repository detected"]).
Proof.
  intros Hr Hs Hv. unfold lookup, projectOf in *.
  rewrite Hr, Hs, Hv. reflexivity.
Qed.

Lemma lookup_conflict (gh : Client) (project : Project.t)
    (repo : Repository.t) :
  Repository gh project = inl repo ->
  SameAs (projectOf repo project) project = true ->
  Repository.Private repo = false ->
  flagCreatePrivate flags = true ->
  lookup flags gh project
  = (Exit (alreadyPublic (Repository.FullName repo)), [ERepository project]).
Proof.
  intros Hr Hs Hp Hf. unfold lookup, projectOf in *.
  rewrite Hr, Hs, Hp, Hf. reflexivity.
Qed.

Lemma lookup_error (gh : Client) (project : Project.t) (err : error) :
  Repository gh project = inr err ->
  lookup flags gh project = (Ok (None, project), [ERepository project]).
Proof. intros Hr. unfold lookup. rewrite Hr. reflexivity. Qed.

Lemma lookup_unrelated (gh : Client) (project : Project.t)
    (repo : Repository.t) :
  Repository gh project = inl repo ->
  SameAs (projectOf repo project) project = false ->
  lookup flags gh project = (Ok (None, project), [ERepository project]).
Proof.
  intros Hr Hs. unfold lookup, projectOf in *. rewrite Hr, Hs. reflexivity.
Qed.

Lemma lookup_noUsableRecord (gh : Client) (project : Project.t) :
  noUsableRecord gh project ->
  lookup flags gh project = (Ok (None, project), [ERepository project]).
Proof.
  intros [[err Hr] | [repo [Hr Hs]]].
  - now apply lookup_error with (err := err).
  - now apply lookup_unrelated with (repo := repo).
Qed.

(** The creation step depends on the client only through its create
    operation. *)
Lemma createIfMissing_ext (gh gh' : Client) (repo : option Repository.t)
    (project : Project.t) :
  CreateRepository gh' = CreateRepository gh ->
  createIfMissing flags args gh' repo project
  = createIfMissing flags args gh repo project.
Proof. intros Hc. unfold createIfMissing. now rewrite Hc. Qed.

Lemma reconcile_lookup (project : Project.t)
    (found : option Repository.t * Project.t) (t : list event) :
  lookup flags (github_NewClient w (Project.Host project)) project
  = (Ok found, t) ->
  reconcile w flags args project
  = after t (createIfMissing flags args
               (github_NewClient w (Project.Host project))
               (fst found) (snd found)).
Proof.
  intros Hl. unfold reconcile. cbv zeta. rewrite Hl. cbn [andThen].
  unfold after. now destruct (createIfMissing _ _ _ _ _).
Qed.

(** The rest of [create] after the desired project. *)
Lemma create_after_desired (project : Project.t) (t : list event) :
  desiredProject w args = (Ok project, t) ->
  create w flags args
  = after t (project' <- reconcile w flags args project ;;
             bindAndShow w flags project').
Proof.
  intros Hd. unfold create, finalProject. rewrite Hd. cbn [andThen].
  destruct (reconcile w flags args project) as [[p' | err] t1];
    cbn [andThen after fst snd].
  - destruct (bindAndShow w flags p') as [r t2]. unfold after. cbn.
    now rewrite app_assoc.
  - reflexivity.
Qed.

Lemma create_after_reconcile (project final : Project.t)
    (t t' : list event) :
  desiredProject w args = (Ok project, t) ->
  reconcile w flags args project = (Ok final, t') ->
  finalProject w flags args = (Ok final, t ++ t')
  /\ create w flags args = after (t ++ t') (bindAndShow w flags final).
Proof.
  intros Hd Hr. split.
  - unfold finalProject. rewrite Hd. cbn [andThen]. now rewrite Hr.
  - rewrite (create_after_desired _ _ Hd), Hr.
    rewrite (andThen_Ok _ _ final t' eq_refl). apply after_after.
Qed.

Lemma create_exit_in_reconcile (project : Project.t) (err : error)
    (t t' : list event) :
  desiredProject w args = (Ok project, t) ->
  reconcile w flags args project = (Exit err, t') ->
  create w flags args = (Exit err, t ++ t').
Proof.
  intros Hd Hr. rewrite (create_after_desired _ _ Hd), Hr. reflexivity.
Qed.

(** Binding the origin and showing the URL never calls the hosting
    service's create operation. *)
Lemma bindAndShow_createCalls (project : Project.t) :
  createCalls (snd (bindAndShow w flags project)) = 0.
Proof.
  unfold bindAndShow, bindOrigin.
  destruct (github_LocalRepo w) as [localRepo | err]; [| reflexivity].
  cbn. destruct (RemoteByName localRepo "origin") as [r | e];
    [| reflexivity].
  destruct (RemoteProject r) as [p | e]; [| reflexivity].
  now destruct (SameAs p project).
Qed.

End Reconcile.

(** C1.  When the lookup returns a record whose project is [SameAs] the
    desired one, and it is not the case that the record is public while a
    private repository was asked for, the reconciliation prints the notice
    "Existing repository detected", ends normally with the project parsed
    from the record's full name, and calls the create operation neither
    there nor anywhere else in the run. *)
Theorem reconcile_reuse {G : Github} (w : World) (flags : Flags)
    (args : Args) (project : Project.t) (repo : Repository.t) :
  Repository (github_NewClient w (Project.Host project)) project = inl repo ->
  SameAs (projectOf repo project) project = true ->
  negb (Repository.Private repo) && flagCreatePrivate flags = false ->
  reconcile w flags args project
  = (Ok (projectOf repo project),
     [ERepository project; EUiError "Existing repository detected"])
  /\ created (reconcile w flags args project) = false
  /\ createCalls (snd (reconcile w flags args project)) = 0
  /\ (forall t : list event,
        desiredProject w args = (Ok project, t) ->
        create w flags args
        = after (t ++ [ERepository project;
                       EUiError "Existing repository detected"])
            (bindAndShow w flags (projectOf repo project))
        /\ createCalls (snd (create w flags args)) = 0).
Proof.
  intros Hr Hs Hv.
  assert (Hrec : reconcile w flags args project
                 = (Ok (projectOf repo project),
                    [ERepository project;
                     EUiError "Existing repository detected"])).
  { rewrite (reconcile_lookup w flags args project _ _
               (lookup_reuse flags _ project repo Hr Hs Hv)).
    reflexivity. }
  rewrite Hrec. repeat split.
  - apply (create_after_reconcile w flags args _ _ _ _ H Hrec).
  - destruct (create_after_reconcile w flags args _ _ _ _ H Hrec)
      as [_ ->].
    unfold after. cbn [snd]. rewrite !createCalls_app.
    rewrite bindAndShow_createCalls.
    destruct (desiredProject_reads w args) as [_ Hn].
    rewrite H in Hn. cbn [snd] in Hn. now rewrite Hn.
Qed.

Lemma reconcile_reuse_witness :
  reconcile (G := Ref.github)
    (Ref.world [Repository.mk "MyOrg/Widgets" false] []) Ref.noFlags
    (mkArgs ["myorg/widgets"] false) Ref.widgets
  = (Ok (Project.mk "MyOrg" "Widgets" "github.com"),
     [ERepository Ref.widgets; EUiError "Existing repository detected"]).
Proof.
  apply (reconcile_reuse (G := Ref.github)
           (Ref.world [Repository.mk "MyOrg/Widgets" false] []) Ref.noFlags
           (mkArgs ["myorg/widgets"] false) Ref.widgets
           (Repository.mk "MyOrg/Widgets" false));
    reflexivity.
Defined.

(** C2.  When the lookup returns a record whose project is [SameAs] the
    desired one, the record is not private and a private repository was
    asked for, the reconciliation ends the run with the error "Repository
    '<full name>' already exists and is public"; the lookup is its only
    call, and the whole run neither calls the create operation nor queues
    a git command. *)
Theorem reconcile_visibility_conflict {G : Github} (w : World)
    (flags : Flags) (args : Args) (project : Project.t)
    (repo : Repository.t) :
  Repository (github_NewClient w (Project.Host project)) project = inl repo ->
  SameAs (projectOf repo project) project = true ->
  Repository.Private repo = false ->
  flagCreatePrivate flags = true ->
  reconcile w flags args project
  = (Exit (alreadyPublic (Repository.FullName repo)), [ERepository project])
  /\ (forall t : list event,
        desiredProject w args = (Ok project, t) ->
        create w flags args
        = (Exit (alreadyPublic (Repository.FullName repo)),
           t ++ [ERepository project])
        /\ filter isMutation (snd (create w flags args)) = []).
Proof.
  intros Hr Hs Hp Hf.
  assert (Hrec : reconcile w flags args project
                 = (Exit (alreadyPublic (Repository.FullName repo)),
                    [ERepository project])).
  { unfold reconcile. cbv zeta.
    now rewrite (lookup_conflict flags _ project repo Hr Hs Hp Hf). }
  split; [exact Hrec |].
  intros t Hd.
  rewrite (create_exit_in_reconcile w flags args _ _ _ _ Hd Hrec).
  split; [reflexivity |].
  cbn [snd]. rewrite filter_app.
  destruct (desiredProject_reads w args) as [Hm _].
  rewrite Hd in Hm. cbn [snd] in Hm. now rewrite Hm.
Qed.

Lemma reconcile_visibility_conflict_witness :
  create (G := Ref.github)
    (Ref.world [Repository.mk "MyOrg/Widgets" false] []) Ref.privateFlag
    (mkArgs ["myorg/widgets"] false)
  = (Exit "Repository 'MyOrg/Widgets' already exists and is public",
     [EGitDir; EDefaultHost; ERepository Ref.widgets]).
Proof.
  destruct (reconcile_visibility_conflict (G := Ref.github)
              (Ref.world [Repository.mk "MyOrg/Widgets" false] [])
              Ref.privateFlag (mkArgs ["myorg/widgets"] false) Ref.widgets
              (Repository.mk "MyOrg/Widgets" false)
              eq_refl eq_refl eq_refl eq_refl) as [_ Hcreate].
  exact (proj1 (Hcreate [EGitDir; EDefaultHost] eq_refl)).
Defined.

(** C3.  An error of the lookup, whatever it is, is handled as the absence
    of a record: the lookup leaves [repo] nil and [project] unchanged, the
    run goes on to the creation step, and it is the same run as with any
    other lookup error and as with a record of another project. *)
Theorem reconcile_lookup_error {G : Github} (w : World) (flags : Flags)
    (args : Args) (project : Project.t) (err : error) :
  Repository (github_NewClient w (Project.Host project)) project = inr err ->
  lookup flags (github_NewClient w (Project.Host project)) project
  = (Ok (None, project), [ERepository project])
  /\ reconcile w flags args project
     = after [ERepository project]
         (createIfMissing flags args
            (github_NewClient w (Project.Host project)) None project)
  /\ (forall w' : World,
        noUsableRecord (github_NewClient w' (Project.Host project)) project ->
        CreateRepository (github_NewClient w' (Project.Host project))
        = CreateRepository (github_NewClient w (Project.Host project)) ->
        reconcile w' flags args project = reconcile w flags args project).
Proof.
  intros Hr.
  pose proof (lookup_error flags _ project err Hr) as Hl.
  split; [exact Hl |]. split.
  - now rewrite (reconcile_lookup w flags args project _ _ Hl).
  - intros w' Hn Hc.
    rewrite (reconcile_lookup w flags args project _ _ Hl).
    rewrite (reconcile_lookup w' flags args project _ _
               (lookup_noUsableRecord flags _ project Hn)).
    cbn [fst snd]. now rewrite (createIfMissing_ext flags args _ _ _ _ Hc).
Qed.

Lemma reconcile_lookup_error_witness :
  reconcile (G := Ref.github) (worldWith (failingLookup "Not Found"))
    Ref.noFlags (mkArgs ["myorg/widgets"] false) Ref.widgets
  = (Ok Ref.widgets,
     [ERepository Ref.widgets; ECreateRepository Ref.widgets "" "" false])
  /\ reconcile (G := Ref.github)
       (worldWith (failingLookup "503 Service Unavailable"))
       Ref.noFlags (mkArgs ["myorg/widgets"] false) Ref.widgets
     = reconcile (G := Ref.github) (worldWith (failingLookup "Not Found"))
         Ref.noFlags (mkArgs ["myorg/widgets"] false) Ref.widgets.
Proof.
  destruct (reconcile_lookup_error (G := Ref.github)
              (worldWith (failingLookup "Not Found")) Ref.noFlags
              (mkArgs ["myorg/widgets"] false) Ref.widgets "Not Found"
              eq_refl) as (_ & Hrun & Hsame).
  split.
  - rewrite Hrun. reflexivity.
  - apply (Hsame (worldWith (failingLookup "503 Service Unavailable"))).
    + left. exists "503 Service Unavailable". reflexivity.
    + reflexivity.
Defined.

(** C4.  With the dry-run switch set and no usable record, the
    reconciliation makes the lookup and nothing else: it ends normally
    with the desired project unchanged, nothing was created, and the whole
    run makes no create call. *)
Theorem reconcile_dry_run {G : Github} (w : World) (flags : Flags)
    (args : Args) (project : Project.t) :
  Noop args = true ->
  noUsableRecord (github_NewClient w (Project.Host project)) project ->
  reconcile w flags args project = (Ok project, [ERepository project])
  /\ created (reconcile w flags args project) = false
  /\ createCalls (snd (reconcile w flags args project)) = 0
  /\ (forall t : list event,
        desiredProject w args = (Ok project, t) ->
        create w flags args
        = after (t ++ [ERepository project]) (bindAndShow w flags project)
        /\ createCalls (snd (create w flags args)) = 0).
Proof.
  intros Hnoop Hn.
  assert (Hrec : reconcile w flags args project
                 = (Ok project, [ERepository project])).
  { rewrite (reconcile_lookup w flags args project _ _
               (lookup_noUsableRecord flags _ project Hn)).
    cbn [fst snd]. unfold createIfMissing. rewrite Hnoop. reflexivity. }
  rewrite Hrec. repeat split.
  - apply (create_after_reconcile w flags args _ _ _ _ H Hrec).
  - destruct (create_after_reconcile w flags args _ _ _ _ H Hrec)
      as [_ ->].
    unfold after. cbn [snd]. rewrite !createCalls_app.
    rewrite bindAndShow_createCalls.
    destruct (desiredProject_reads w args) as [_ Hc].
    rewrite H in Hc. cbn [snd] in Hc. now rewrite Hc.
Qed.

Lemma reconcile_dry_run_witness :
  reconcile (G := Ref.github) (Ref.world [] []) Ref.noFlags
    (mkArgs ["myorg/widgets"] true) Ref.widgets
  = (Ok Ref.widgets, [ERepository Ref.widgets]).
Proof.
  apply (reconcile_dry_run (G := Ref.github) (Ref.world [] []) Ref.noFlags
           (mkArgs ["myorg/widgets"] true) Ref.widgets eq_refl).
  left. exists "Not Found". reflexivity.
Defined.

(** ** The origin remote and the URL *)

Section Bind.

Context {G : Github}.
Variable localRepo : GitHubRepo.
Variable project : Project.t.

Lemma bindOrigin_conflict (originRemote : Remote.t) :
  RemoteByName localRepo "origin" = inl originRemote ->
  pointsElsewhere originRemote project ->
  bindOrigin localRepo project
  = (Ok tt, [ERemoteByName "origin"; EUiError (originWarning originRemote)]).
Proof.
  intros Hr [[err Hp] | [op [Hp Hs]]]; unfold bindOrigin; cbv zeta;
    rewrite Hr, Hp; [| rewrite Hs]; reflexivity.
Qed.

Lemma bindOrigin_match (originRemote : Remote.t)
    (originProject : Project.t) :
  RemoteByName localRepo "origin" = inl originRemote ->
  RemoteProject originRemote = inl originProject ->
  SameAs originProject project = true ->
  bindOrigin localRepo project = (Ok tt, [ERemoteByName "origin"]).
Proof.
  intros Hr Hp Hs. unfold bindOrigin. cbv zeta. rewrite Hr, Hp, Hs.
  reflexivity.
Qed.

Lemma bindOrigin_absent (err : error) :
  RemoteByName localRepo "origin" = inr err ->
  bindOrigin localRepo project
  = (Ok tt, [ERemoteByName "origin"; EArgsBefore (addOrigin project)]).
Proof. intros Hr. unfold bindOrigin. cbv zeta. rewrite Hr. reflexivity. Qed.

Lemma bindOrigin_Ok : fst (bindOrigin localRepo project) = Ok tt.
Proof.
  unfold bindOrigin. cbv zeta.
  destruct (RemoteByName localRepo "origin") as [r | e]; [| reflexivity].
  destruct (RemoteProject r) as [p | e]; [| reflexivity].
  now destruct (SameAs p project).
Qed.

End Bind.

Lemma bindAndShow_Ok {G : Github} (w : World) (flags : Flags)
    (project : Project.t) (localRepo : GitHubRepo) :
  github_LocalRepo w = inl localRepo ->
  bindAndShow w flags project
  = (Ok tt,
     ELocalRepo :: snd (bindOrigin localRepo project)
     ++ [EArgsNoForward;
         EPrintBrowseOrCopy (WebURL project "" "" "")
           (flagCreateBrowse flags) (flagCreateCopy flags)]).
Proof.
  intros Hl. pose proof (bindOrigin_Ok localRepo project) as Hok.
  unfold bindAndShow. rewrite Hl.
  cbn [andThen emit checked utils_Check ret app].
  destruct (bindOrigin localRepo project) as [r t]. cbn in Hok. subst r.
  reflexivity.
Qed.

(** C7.  Binding the origin remote never fails and does one of three
    things after reading the remote named origin: if the remote exists and
    points elsewhere, it prints the warning and queues nothing; if the
    remote exists and is [SameAs] the final project, it does nothing more;
    if there is no such remote, it queues (with [args.Before]) the command
    [git remote add -f origin <url>], the URL being the project's
    [GitURL]. *)
Theorem bindOrigin_cases {G : Github} (localRepo : GitHubRepo)
    (project : Project.t) :
  fst (bindOrigin localRepo project) = Ok tt
  /\ (forall originRemote : Remote.t,
        RemoteByName localRepo "origin" = inl originRemote ->
        pointsElsewhere originRemote project ->
        bindOrigin localRepo project
        = (Ok tt,
           [ERemoteByName "origin"; EUiError (originWarning originRemote)]))
  /\ (forall (originRemote : Remote.t) (originProject : Project.t),
        RemoteByName localRepo "origin" = inl originRemote ->
        RemoteProject originRemote = inl originProject ->
        SameAs originProject project = true ->
        bindOrigin localRepo project = (Ok tt, [ERemoteByName "origin"]))
  /\ (forall err : error,
        RemoteByName localRepo "origin" = inr err ->
        bindOrigin localRepo project
        = (Ok tt,
           [ERemoteByName "origin";
            EArgsBefore ["git"; "remote"; "add"; "-f"; "origin";
                         GitURL project "" "" true]])).
Proof.
  split; [apply bindOrigin_Ok |]. split; [| split].
  - apply bindOrigin_conflict.
  - apply bindOrigin_match.
  - apply bindOrigin_absent.
Qed.

Lemma bindOrigin_cases_witness :
  bindOrigin (G := Ref.github) (Ref.localRepo [unrelatedOrigin]) Ref.widgets
  = (Ok tt,
     [ERemoteByName "origin"; EUiError (originWarning unrelatedOrigin)])
  /\ bindOrigin (G := Ref.github) (Ref.localRepo [unparsableOrigin])
       Ref.widgets
     = (Ok tt,
        [ERemoteByName "origin"; EUiError (originWarning unparsableOrigin)])
  /\ bindOrigin (G := Ref.github) (Ref.localRepo [matchingOrigin])
       Ref.widgets
     = (Ok tt, [ERemoteByName "origin"])
  /\ bindOrigin (G := Ref.github) (Ref.localRepo []) Ref.widgets
     = (Ok tt,
        [ERemoteByName "origin";
         EArgsBefore ["git"; "remote"; "add"; "-f"; "origin";
                      "git@github.com:myorg/widgets.git"]]).
Proof.
  split; [| split; [| split]].
  - apply (proj1 (proj2 (bindOrigin_cases (G := Ref.github)
                           (Ref.localRepo [unrelatedOrigin]) Ref.widgets))
             unrelatedOrigin eq_refl).
    right. exists (Project.mk "other" "unrelated" "github.com").
    split; reflexivity.
  - apply (proj1 (proj2 (bindOrigin_cases (G := Ref.github)
                           (Ref.localRepo [unparsableOrigin]) Ref.widgets))
             unparsableOrigin eq_refl).
    left. exists "Invalid GitHub URL". reflexivity.
  - apply (proj1 (proj2 (proj2 (bindOrigin_cases (G := Ref.github)
                                  (Ref.localRepo [matchingOrigin])
                                  Ref.widgets)))
             matchingOrigin (Project.mk "MyOrg" "Widgets" "github.com")
             eq_refl eq_refl eq_refl).
  - apply (proj2 (proj2 (proj2 (bindOrigin_cases (G := Ref.github)
                                  (Ref.localRepo []) Ref.widgets)))
             "No git remote with that name" eq_refl).
Defined.

(** C9.  A run of [create] that ends normally has passed every fatal
    check: the reconciliation gave a final project and the local
    repository was opened.  Whatever the binding of the origin remote did
    after that, the run ends by showing [WebURL] of that final project;
    in particular, when the origin remote points elsewhere the warning is
    printed, nothing is queued, and the URL shown is still the final
    project's. *)
Theorem create_shows_final_url {G : Github} (w : World) (flags : Flags)
    (args : Args) :
  fst (create w flags args) = Ok tt ->
  exists (project : Project.t) (t : list event) (localRepo : GitHubRepo),
    finalProject w flags args = (Ok project, t)
    /\ github_LocalRepo w = inl localRepo
    /\ create w flags args
       = (Ok tt,
          t ++ ELocalRepo :: snd (bindOrigin localRepo project)
          ++ [EArgsNoForward;
              EPrintBrowseOrCopy (WebURL project "" "" "")
                (flagCreateBrowse flags) (flagCreateCopy flags)])
    /\ (forall originRemote : Remote.t,
          RemoteByName localRepo "origin" = inl originRemote ->
          pointsElsewhere originRemote project ->
          create w flags args
          = (Ok tt,
             t ++ [ELocalRepo; ERemoteByName "origin";
                   EUiError (originWarning originRemote);
                   EArgsNoForward;
                   EPrintBrowseOrCopy (WebURL project "" "" "")
                     (flagCreateBrowse flags) (flagCreateCopy flags)])).
Proof.
  intros Hok. unfold create in *.
  destruct (finalProject w flags args) as [[project | err] t] eqn:Hfinal;
    [| discriminate Hok].
  cbn [andThen] in *.
  destruct (github_LocalRepo w) as [localRepo | err] eqn:Hlocal.
  - exists project, t, localRepo.
    rewrite (bindAndShow_Ok w flags project localRepo Hlocal).
    repeat split.
    intros originRemote Hr He.
    now rewrite (bindOrigin_conflict localRepo project originRemote Hr He).
  - exfalso. unfold bindAndShow in Hok. rewrite Hlocal in Hok.
    discriminate Hok.
Qed.

Lemma create_shows_final_url_witness :
  exists (t : list event) (localRepo : GitHubRepo),
    create (G := Ref.github) (Ref.world [] [unrelatedOrigin]) Ref.noFlags
      (mkArgs ["myorg/widgets"] false)
    = (Ok tt,
       t ++ ELocalRepo :: snd (bindOrigin (G := Ref.github) localRepo
                                 Ref.widgets)
       ++ [EArgsNoForward;
           EPrintBrowseOrCopy "https://github.com/myorg/widgets"
             false false]).
Proof.
  destruct (create_shows_final_url (G := Ref.github)
              (Ref.world [] [unrelatedOrigin]) Ref.noFlags
              (mkArgs ["myorg/widgets"] false) eq_refl)
    as (project & t & localRepo & Hfinal & _ & Hrun & _).
  injection Hfinal as <- _.
  exists t, localRepo. exact Hrun.
Defined.

Example run_create_conflict :
  create (G := Ref.github) (Ref.world [] [unrelatedOrigin]) Ref.noFlags
    (mkArgs ["myorg/widgets"] false)
  = (Ok tt,
     [EGitDir; EDefaultHost; ERepository Ref.widgets;
      ECreateRepository Ref.widgets "" "" false;
      ELocalRepo; ERemoteByName "origin";
      EUiError (originWarning unrelatedOrigin);
      EArgsNoForward;
      EPrintBrowseOrCopy "https://github.com/myorg/widgets" false false]).
Proof. reflexivity. Qed.

(** ** Every run, case by case *)

Lemma fst_andThen {A B : Type} (m : M A) (k : A -> M B) :
  fst (andThen m k)
  = match fst m with Ok a => fst (k a) | Exit err => Exit err end.
Proof.
  destruct m as [[a | err] t]; cbn; [now destruct (k a) | reflexivity].
Qed.

Lemma snd_andThen {A B : Type} (m : M A) (k : A -> M B) :
  snd (andThen m k)
  = snd m ++ match fst m with Ok a => snd (k a) | Exit _ => [] end.
Proof.
  destruct m as [[a | err] t]; cbn;
    [now destruct (k a) | now rewrite app_nil_r].
Qed.

Section Cases.

Context {G : Github}.
Variable w : World.
Variable flags : Flags.
Variable args : Args.

Lemma desiredProject_run : DesiredRun w args (desiredProject w args).
Proof.
  unfold desiredProject, resolveName, defaultHost, IsParamsEmpty, FirstParam.
  destruct (git_Dir w) as [dir | err] eqn:Hd;
    [| now apply DesiredNotInGit with (err := err)].
  destruct (Params args) as [| arg rest] eqn:Hp.
  - destruct (git_WorkdirName w) as [dirName | err] eqn:Hw;
      [| now apply DesiredNoWorkdir with (dir := dir)].
    destruct (DefaultHost (github_CurrentConfig w)) as [host | err] eqn:Hh.
    + apply (DesiredOk w args dir (SanitizeProjectName dirName)
               [EGitWorkdirName] host); auto.
      now apply ResolvedWorkdir.
    + apply (DesiredNoHost w args dir (SanitizeProjectName dirName)
               [EGitWorkdirName] err); auto.
      now apply ResolvedWorkdir.
  - cbn [hd]. destruct (reg_MatchString arg) eqn:Hm;
      [| now apply DesiredInvalid with (dir := dir) (rest := rest)].
    destruct (DefaultHost (github_CurrentConfig w)) as [host | err] eqn:Hh.
    + apply (DesiredOk w args dir arg [] host); auto.
      now apply ResolvedExplicit with (rest := rest).
    + apply (DesiredNoHost w args dir arg [] err); auto.
      now apply ResolvedExplicit with (rest := rest).
Qed.

Lemma createIfMissing_run (project : Project.t) :
  noUsableRecord (github_NewClient w (Project.Host project)) project ->
  ReconcileRun w flags args project
    (after [ERepository project]
       (createIfMissing flags args
          (github_NewClient w (Project.Host project)) None project)).
Proof.
  intros Hn. unfold createIfMissing.
  destruct (Noop args) eqn:Hnoop; cbn [negb].
  - now apply ReconcileDryRun.
  - destruct (CreateRepository _ project _ _ _) as [repo | err] eqn:Hc.
    + now apply ReconcileCreated.
    + now apply ReconcileCreateFailed.
Qed.

Lemma reconcile_run (project : Project.t) :
  ReconcileRun w flags args project (reconcile w flags args project).
Proof.
  destruct (Repository (github_NewClient w (Project.Host project)) project)
    as [repo | err] eqn:Hr.
  - destruct (SameAs (projectOf repo project) project) eqn:Hs.
    + destruct (negb (Repository.Private repo) && flagCreatePrivate flags)
        eqn:Hv.
      * apply andb_true_iff in Hv. destruct Hv as [Hp Hf].
        apply negb_true_iff in Hp.
        unfold reconcile. cbv zeta.
        rewrite (lookup_conflict flags _ project repo Hr Hs Hp Hf).
        now apply ReconcileConflict.
      * rewrite (reconcile_lookup w flags args project _ _
                   (lookup_reuse flags _ project repo Hr Hs Hv)).
        now apply ReconcileReuse.
    + rewrite (reconcile_lookup w flags args project _ _
                 (lookup_unrelated flags _ project repo Hr Hs)).
      apply createIfMissing_run. right. now exists repo.
  - rewrite (reconcile_lookup w flags args project _ _
               (lookup_error flags _ project err Hr)).
    apply createIfMissing_run. left. now exists err.
Qed.

Lemma bindOrigin_run (localRepo : GitHubRepo) (project : Project.t) :
  BindRun localRepo project (snd (bindOrigin localRepo project)).
Proof.
  destruct (RemoteByName localRepo "origin") as [r | err] eqn:Hr.
  - destruct (RemoteProject r) as [p | err] eqn:Hp.
    + destruct (SameAs p project) eqn:Hs.
      * rewrite (bindOrigin_match localRepo project r p Hr Hp Hs).
        now apply BindMatch with (originRemote := r) (originProject := p).
      * assert (He : pointsElsewhere r project)
          by (right; now exists p).
        rewrite (bindOrigin_conflict localRepo project r Hr He).
        now apply BindConflict.
    + assert (He : pointsElsewhere r project)
        by (left; now exists err).
      rewrite (bindOrigin_conflict localRepo project r Hr He).
      now apply BindConflict.
  - rewrite (bindOrigin_absent localRepo project err Hr).
    now apply BindAdd with (err := err).
Qed.

Lemma bindAndShow_run (project : Project.t) :
  ShowRun w flags project (bindAndShow w flags project).
Proof.
  destruct (github_LocalRepo w) as [localRepo | err] eqn:Hl.
  - rewrite (bindAndShow_Ok w flags project localRepo Hl).
    apply (ShowOk w flags project localRepo
             (snd (bindOrigin localRepo project)));
      [assumption | apply bindOrigin_run].
  - unfold bindAndShow. rewrite Hl. cbn.
    now apply ShowNoLocalRepo.
Qed.

Lemma create_run : CreateRun w flags args (create w flags args).
Proof.
  unfold create, finalProject.
  pose proof desiredProject_run as Hd.
  destruct (desiredProject w args) as [[project | err] t] eqn:Ed;
    cbn [andThen]; [| now apply CreateNoProject].
  pose proof (reconcile_run project) as Hr.
  destruct (reconcile w flags args project) as [[final | err] t'] eqn:Er;
    cbn [andThen]; [| now apply CreateNoReconcile with (project := project)].
  pose proof (bindAndShow_run final) as Hs.
  destruct (bindAndShow w flags final) as [r t'']. rewrite <- app_assoc.
  now apply CreateReconciled with (project := project) (final := final).
Qed.

End Cases.

Ltac invert_run H := inversion H; subst; clear H.

Ltac run_cases :=
  repeat match goal with
    | H : CreateRun _ _ _ _ |- _ => invert_run H
    | H : DesiredRun _ _ _ |- _ => invert_run H
    | H : ResolvedName _ _ _ _ |- _ => invert_run H
    | H : ReconcileRun _ _ _ _ _ |- _ => invert_run H
    | H : ShowRun _ _ _ _ |- _ => invert_run H
    | H : BindRun _ _ _ |- _ => invert_run H
    end.

(** ** The name, the argument and the host *)

(** X1.  Without parameters, inside a git working copy, a failure of
    [git.WorkdirName] ends the run with that error as it is; the two git
    calls are the only calls made. *)
Theorem create_workdir_error {G : Github} (w : World) (flags : Flags)
    (args : Args) (dir : string) (err : error) :
  git_Dir w = inl dir ->
  Params args = [] ->
  git_WorkdirName w = inr err ->
  create w flags args = (Exit err, [EGitDir; EGitWorkdirName]).
Proof.
  intros Hd Hp Hw.
  unfold create, finalProject, desiredProject, resolveName, IsParamsEmpty.
  rewrite Hd, Hp, Hw. reflexivity.
Qed.

Lemma create_workdir_error_witness :
  create (G := Ref.github) noWorkdirName Ref.noFlags (mkArgs [] false)
  = (Exit "fatal: this operation must be run in a work tree",
     [EGitDir; EGitWorkdirName]).
Proof.
  apply (create_workdir_error (G := Ref.github) noWorkdirName Ref.noFlags
           (mkArgs [] false) ".git"); reflexivity.
Defined.

(** X2.  Only the first parameter counts: the parameters after it change
    nothing in the run, and with a parameter the name of the working
    directory is never asked for. *)
Theorem create_first_parameter_only {G : Github} (w : World)
    (flags : Flags) (raw : string) (rest : list string) (noop : bool) :
  create w flags (mkArgs (raw :: rest) noop)
  = create w flags (mkArgs [raw] noop)
  /\ ~ In EGitWorkdirName (snd (create w flags (mkArgs (raw :: rest) noop))).
Proof.
  split; [reflexivity |].
  pose proof (create_run w flags (mkArgs (raw :: rest) noop)) as Hrun.
  destruct (create w flags (mkArgs (raw :: rest) noop)) as [r t].
  run_cases; try discriminate;
    unfold createCall, showEvents; cbn; intuition discriminate.
Qed.

(** X3.  Inside a git working copy, the run stops at the argument check
    exactly when the first parameter is empty or starts with [-]. *)
Theorem argument_check_exact {G : Github} (w : World)
    (flags : Flags) (args : Args) (dir arg : string) (rest : list string) :
  git_Dir w = inl dir ->
  Params args = arg :: rest ->
  create w flags args = (Exit (invalidArgument arg), [EGitDir])
  <-> arg = EmptyString \/ exists s, arg = String "-" s.
Proof.
  intros Hd Hp. rewrite <- reg_MatchString_false. split.
  - intros Hc. destruct (reg_MatchString arg) eqn:Hm; [| reflexivity].
    exfalso. pose proof (create_run w flags args) as Hrun.
    rewrite Hc in Hrun. run_cases; cbn in *; congruence.
  - intros Hm.
    unfold create, finalProject, desiredProject, resolveName, IsParamsEmpty,
      FirstParam.
    rewrite Hd, Hp. cbn [hd]. rewrite Hm. reflexivity.
Qed.

Lemma argument_check_exact_witness :
  create (G := Ref.github) (Ref.world [] []) Ref.noFlags (mkArgs [""] false)
  = (Exit "invalid argument: ", [EGitDir]).
Proof.
  apply (argument_check_exact (G := Ref.github) (Ref.world [] [])
           Ref.noFlags (mkArgs [""] false) ".git" "" [] eq_refl eq_refl).
  now left.
Defined.

(** X4.  When the name is resolved and the configuration has no default
    host, the run ends with the error that [github.FormatError] makes of
    "creating repository" and the configuration's error; the hosting
    service is not contacted and the local repository is not opened. *)
Theorem create_host_error {G : Github} (w : World) (flags : Flags)
    (args : Args) (dir raw : string) (t : list event) (err : error) :
  git_Dir w = inl dir ->
  resolveName w args = (Ok raw, t) ->
  DefaultHost (github_CurrentConfig w) = inr err ->
  create w flags args
  = (Exit (FormatError "creating repository" err),
     EGitDir :: t ++ [EDefaultHost]).
Proof.
  intros Hd Hr Hh.
  unfold create, finalProject, desiredProject, defaultHost.
  rewrite Hd, Hr, Hh. cbn. now rewrite ?app_nil_r.
Qed.

Lemma create_host_error_witness :
  create (G := Ref.github) noHost Ref.noFlags (mkArgs [] false)
  = (Exit "Error creating repository: no host configured",
     [EGitDir; EGitWorkdirName; EDefaultHost]).
Proof.
  apply (create_host_error (G := Ref.github) noHost Ref.noFlags
           (mkArgs [] false) ".git" "widgets" [EGitWorkdirName]
           "no host configured"); reflexivity.
Defined.

(** X5.  A raw name that contains [/] is cut into an owner without [/]
    and a name such that owner, [/] and name give back the raw name; the
    user of the host plays no part in it. *)
Theorem ownerAndName_roundtrip (host host' : Host.t) (raw : string) :
  strings.Contains raw "/" = true ->
  raw = (fst (ownerAndName host raw) ++ "/"
         ++ snd (ownerAndName host raw))%string
  /\ strings.Contains (fst (ownerAndName host raw)) "/" = false
  /\ ownerAndName host' raw = ownerAndName host raw.
Proof.
  intros Hc. unfold ownerAndName. rewrite Hc, SplitN_2.
  unfold strings.Contains in Hc.
  destruct (strings.Cut raw "/") as [[before rest] |] eqn:Hcut;
    [| discriminate Hc].
  destruct (Cut_slash_Some _ _ _ Hcut) as (Hraw & Hb & _).
  cbn [nth fst snd]. repeat split; [exact Hraw |].
  now apply Contains_slash_count.
Qed.

Lemma ownerAndName_roundtrip_witness :
  ownerAndName (Host.mk "github.com" "me") "/repo" = ("", "repo")
  /\ ownerAndName (Host.mk "github.com" "me") "org/" = ("org", "")
  /\ strings.Contains (fst (ownerAndName (Host.mk "github.com" "me")
                              "org/sub/repo")) "/" = false.
Proof.
  split; [reflexivity |]. split; [reflexivity |].
  exact (proj1 (proj2 (ownerAndName_roundtrip (Host.mk "github.com" "me")
                         (Host.mk "github.com" "you") "org/sub/repo"
                         eq_refl))).
Defined.

(** ** Creating the repository *)

(** X6.  With no usable record and no dry run, an error of the create
    operation ends the run with that error as it is, right after the
    create call: the local repository is not opened, no command is queued
    and no URL is shown. *)
Theorem create_repository_error {G : Github} (w : World) (flags : Flags)
    (args : Args) (project : Project.t) (t : list event) (err : error) :
  desiredProject w args = (Ok project, t) ->
  noUsableRecord (github_NewClient w (Project.Host project)) project ->
  Noop args = false ->
  CreateRepository (github_NewClient w (Project.Host project)) project
    (flagCreateDescription flags) (flagCreateHomepage flags)
    (flagCreatePrivate flags) = inr err ->
  create w flags args
  = (Exit err, t ++ [ERepository project; createCall flags project]).
Proof.
  intros Hd Hn Hnoop Hc.
  apply (create_exit_in_reconcile w flags args project err t _ Hd).
  rewrite (reconcile_lookup w flags args project _ _
             (lookup_noUsableRecord flags _ project Hn)).
  cbn [fst snd]. unfold createIfMissing. rewrite Hnoop. cbn [negb].
  rewrite Hc. reflexivity.
Qed.

Lemma create_repository_error_witness :
  create (G := Ref.github) (worldWith (failingCreate "422 Validation Failed"))
    Ref.noFlags (mkArgs ["myorg/widgets"] false)
  = (Exit "422 Validation Failed",
     [EGitDir; EDefaultHost; ERepository Ref.widgets;
      ECreateRepository Ref.widgets "" "" false]).
Proof.
  apply (create_repository_error (G := Ref.github)
           (worldWith (failingCreate "422 Validation Failed")) Ref.noFlags
           (mkArgs ["myorg/widgets"] false) Ref.widgets
           [EGitDir; EDefaultHost] "422 Validation Failed");
    try reflexivity.
  left. exists "Not Found". reflexivity.
Defined.

(** X7.  With no usable record and no dry run, a successful create call is
    made for the desired project with the description, homepage and
    private flags, and the final project is the one parsed from the full
    name that the hosting service returned, not the desired one. *)
Theorem reconcile_creates {G : Github} (w : World) (flags : Flags)
    (args : Args) (project : Project.t) (repo : Repository.t) :
  noUsableRecord (github_NewClient w (Project.Host project)) project ->
  Noop args = false ->
  CreateRepository (github_NewClient w (Project.Host project)) project
    (flagCreateDescription flags) (flagCreateHomepage flags)
    (flagCreatePrivate flags) = inl repo ->
  reconcile w flags args project
  = (Ok (projectOf repo project),
     [ERepository project;
      ECreateRepository project (flagCreateDescription flags)
        (flagCreateHomepage flags) (flagCreatePrivate flags)])
  /\ created (reconcile w flags args project) = true
  /\ (forall t : list event,
        desiredProject w args = (Ok project, t) ->
        create w flags args
        = after (t ++ [ERepository project; createCall flags project])
            (bindAndShow w flags (projectOf repo project))).
Proof.
  intros Hn Hnoop Hc.
  assert (Hrec : reconcile w flags args project
                 = (Ok (projectOf repo project),
                    [ERepository project; createCall flags project])).
  { rewrite (reconcile_lookup w flags args project _ _
               (lookup_noUsableRecord flags _ project Hn)).
    cbn [fst snd]. unfold createIfMissing. rewrite Hnoop. cbn [negb].
    rewrite Hc. reflexivity. }
  rewrite Hrec. split; [reflexivity |]. split; [reflexivity |].
  intros t Hd.
  apply (create_after_reconcile w flags args _ _ _ _ Hd Hrec).
Qed.

Lemma reconcile_creates_witness :
  reconcile (G := Ref.github) (Ref.world [] []) Ref.privateFlag
    (mkArgs ["myorg/widgets"] false) Ref.widgets
  = (Ok Ref.widgets,
     [ERepository Ref.widgets; ECreateRepository Ref.widgets "" "" true]).
Proof.
  apply (reconcile_creates (G := Ref.github) (Ref.world [] [])
           Ref.privateFlag (mkArgs ["myorg/widgets"] false) Ref.widgets
           (Repository.mk "myorg/widgets" true)); try reflexivity.
  left. exists "Not Found". reflexivity.
Defined.

(** X8.  No run calls the create operation more than once. *)
Theorem create_at_most_one_create_call {G : Github} (w : World)
    (flags : Flags) (args : Args) :
  createCalls (snd (create w flags args)) <= 1.
Proof.
  pose proof (create_run w flags args) as Hrun.
  destruct (create w flags args) as [r t].
  run_cases; unfold createCall, showEvents; cbn; lia.
Qed.

(** X9.  A dry run never calls the create operation, whatever the lookup
    returns. *)
Theorem create_dry_run_never_creates {G : Github} (w : World)
    (flags : Flags) (args : Args) :
  Noop args = true ->
  createCalls (snd (create w flags args)) = 0.
Proof.
  intros Hnoop. pose proof (create_run w flags args) as Hrun.
  destruct (create w flags args) as [r t].
  run_cases; try congruence; unfold showEvents; cbn; reflexivity.
Qed.

Lemma create_dry_run_never_creates_witness :
  createCalls
    (snd (create (G := Ref.github)
            (Ref.world [Repository.mk "other/unrelated" false] [])
            Ref.noFlags (mkArgs ["myorg/widgets"] true)))
  = 0.
Proof.
  apply (create_dry_run_never_creates (G := Ref.github)
           (Ref.world [Repository.mk "other/unrelated" false] [])
           Ref.noFlags (mkArgs ["myorg/widgets"] true)).
  reflexivity.
Defined.

(** X10.  The create operation is called only for the desired project,
    with the description, homepage and private flags, outside a dry run
    and when the lookup gave no usable record. *)
Theorem create_call_only_when_missing {G : Github} (w : World)
    (flags : Flags) (args : Args) (project : Project.t)
    (description homepage : string) (private : bool) :
  In (ECreateRepository project description homepage private)
    (snd (create w flags args)) ->
  fst (desiredProject w args) = Ok project
  /\ description = flagCreateDescription flags
  /\ homepage = flagCreateHomepage flags
  /\ private = flagCreatePrivate flags
  /\ Noop args = false
  /\ noUsableRecord (github_NewClient w (Project.Host project)) project.
Proof.
  intros Hin. pose proof (create_run w flags args) as Hrun.
  destruct (create w flags args) as [r t]. cbn [snd] in Hin.
  run_cases;
    unfold createCall, showEvents in Hin; cbn in Hin;
    repeat match goal with
      | H : _ \/ _ |- _ => destruct H
      | H : False |- _ => destruct H
      | H : _ = ECreateRepository _ _ _ _ |- _ =>
          try discriminate H; injection H as <- <- <- <-
      end;
    match goal with
    | H : desiredProject _ _ = _ |- _ => rewrite H
    end; repeat split; assumption.
Qed.

Lemma create_call_only_when_missing_witness :
  Noop (mkArgs ["myorg/widgets"] false) = false
  /\ noUsableRecord (G := Ref.github) (Ref.client []) Ref.widgets.
Proof.
  destruct (create_call_only_when_missing (G := Ref.github)
              (Ref.world [] []) Ref.noFlags (mkArgs ["myorg/widgets"] false)
              Ref.widgets "" "" false)
    as (_ & _ & _ & _ & Hnoop & Hn).
  - cbn. tauto.
  - split; [exact Hnoop | exact Hn].
Defined.

(** ** Fatal errors and what was done before them *)

(** X11.  A run that ends with a fatal error has queued no command and
    shown no URL. *)
Theorem create_fatal_queues_nothing {G : Github} (w : World)
    (flags : Flags) (args : Args) (err : error) :
  fst (create w flags args) = Exit err ->
  filter isArgsBefore (snd (create w flags args)) = []
  /\ filter isShow (snd (create w flags args)) = [].
Proof.
  intros Hexit. pose proof (create_run w flags args) as Hrun.
  destruct (create w flags args) as [r t]. cbn [fst snd] in *. subst r.
  run_cases; unfold createCall; cbn; now split.
Qed.

Lemma create_fatal_queues_nothing_witness :
  filter isArgsBefore
    (snd (create (G := Ref.github) noLocalRepo Ref.noFlags
            (mkArgs ["myorg/widgets"] false)))
  = [].
Proof.
  apply (create_fatal_queues_nothing (G := Ref.github) noLocalRepo
           Ref.noFlags (mkArgs ["myorg/widgets"] false)
           "fatal: not a git repository").
  reflexivity.
Defined.

(** X12.  The only command that a run ever queues is
    [git remote add -f origin <url>] with the [GitURL] of the final
    project, and it is queued only when the local repository has no remote
    named origin. *)
Theorem create_queues_only_add_origin {G : Github} (w : World)
    (flags : Flags) (args : Args) (argv : list string) :
  In (EArgsBefore argv) (snd (create w flags args)) ->
  exists (final : Project.t) (localRepo : GitHubRepo) (err : error),
    fst (finalProject w flags args) = Ok final
    /\ github_LocalRepo w = inl localRepo
    /\ RemoteByName localRepo "origin" = inr err
    /\ argv = ["git"; "remote"; "add"; "-f"; "origin";
               GitURL final "" "" true].
Proof.
  intros Hin. pose proof (create_run w flags args) as Hrun.
  destruct (create w flags args) as [r t]. cbn [snd] in Hin.
  inversion Hrun as [e t0 Hd HD | p e t0 t1 Hd HD HR
                     | p final r' t0 t1 t2 Hd HD Hr HR HS]; subst; clear Hrun.
  - exfalso. run_cases; cbn in Hin; intuition discriminate.
  - exfalso. run_cases; unfold createCall in Hin; cbn in Hin;
      intuition discriminate.
  - destruct (create_after_reconcile w flags args _ _ _ _ Hd Hr)
      as [Hfinal _].
    run_cases; unfold createCall, showEvents in Hin; cbn in Hin;
      repeat match goal with
        | H : _ \/ _ |- _ => destruct H
        | H : False |- _ => destruct H
        | H : _ = EArgsBefore _ |- _ =>
            try discriminate H; injection H as <-
        end;
      match goal with
      | Hl : github_LocalRepo w = inl ?lr,
        Hr : RemoteByName ?lr "origin" = inr ?e |- _ =>
          eexists _, lr, e; rewrite Hfinal; cbn [fst];
          split; [reflexivity | now repeat split]
      end.
Qed.

Lemma create_queues_only_add_origin_witness :
  exists final : Project.t,
    fst (finalProject (G := Ref.github)
           (Ref.world [Repository.mk "MyOrg/Widgets" false] []) Ref.noFlags
           (mkArgs ["myorg/widgets"] false)) = Ok final
    /\ ["git"; "remote"; "add"; "-f"; "origin";
        "git@github.com:MyOrg/Widgets.git"]
       = ["git"; "remote"; "add"; "-f"; "origin";
          GitURL (Github := Ref.github) final "" "" true].
Proof.
  destruct (create_queues_only_add_origin (G := Ref.github)
              (Ref.world [Repository.mk "MyOrg/Widgets" false] [])
              Ref.noFlags (mkArgs ["myorg/widgets"] false)
              ["git"; "remote"; "add"; "-f"; "origin";
               "git@github.com:MyOrg/Widgets.git"])
    as (final & _ & _ & Hfinal & _ & _ & Hargv).
  - cbn. repeat (try (left; reflexivity); right).
  - exists final. split; [exact Hfinal | exact Hargv].
Defined.

(** X13.  Every fatal error of a run is one of seven: the error of the
    git check, the error of [git.WorkdirName], the invalid argument, the
    wrapped error of the configuration, the existing public repository,
    the error of the create operation, or the error of
    [github.LocalRepo]. *)
Theorem create_fatal_causes {G : Github} (w : World) (flags : Flags)
    (args : Args) (err : error) :
  fst (create w flags args) = Exit err ->
  Fatal w flags args err.
Proof.
  intros Hexit. pose proof (create_run w flags args) as Hrun.
  destruct (create w flags args) as [r t]. cbn [fst] in Hexit. subst r.
  inversion Hrun as [e t0 Hd HD | p e t0 t1 Hd HD HR
                     | p final r' t0 t1 t2 Hd HD Hr HR HS]; subst; clear Hrun.
  - inversion HD; subst.
    + now apply FatalNotInGit with (err := err0).
    + now apply FatalWorkdirName.
    + now apply FatalInvalidArgument with (rest := rest).
    + now apply FatalNoHost.
  - assert (Hp : fst (desiredProject w args) = Ok p) by now rewrite Hd.
    inversion HR; subst.
    + now apply FatalAlreadyPublic with (project := p).
    + now apply FatalCreateRepository with (project := p).
  - inversion HS; subst. now apply FatalLocalRepo.
Qed.

Lemma create_fatal_causes_witness :
  Fatal (G := Ref.github) noLocalRepo Ref.noFlags
    (mkArgs ["myorg/widgets"] false) "fatal: not a git repository".
Proof.
  apply (create_fatal_causes (G := Ref.github) noLocalRepo Ref.noFlags
           (mkArgs ["myorg/widgets"] false) "fatal: not a git repository").
  reflexivity.
Defined.

(** X14.  The local repository is opened only after the reconciliation:
    when the repository has just been created and [github.LocalRepo]
    fails, the run ends with that error after the create call, with no
    remote added and no URL shown. *)
Theorem create_local_repo_error_after_creation {G : Github} (w : World)
    (flags : Flags) (args : Args) (project : Project.t)
    (repo : Repository.t) (t : list event) (err : error) :
  desiredProject w args = (Ok project, t) ->
  noUsableRecord (github_NewClient w (Project.Host project)) project ->
  Noop args = false ->
  CreateRepository (github_NewClient w (Project.Host project)) project
    (flagCreateDescription flags) (flagCreateHomepage flags)
    (flagCreatePrivate flags) = inl repo ->
  github_LocalRepo w = inr err ->
  create w flags args
  = (Exit err,
     t ++ [ERepository project; createCall flags project; ELocalRepo])
  /\ createCalls (snd (create w flags args)) = 1.
Proof.
  intros Hd Hn Hnoop Hc Hl.
  assert (Hrec : reconcile w flags args project
                 = (Ok (projectOf repo project),
                    [ERepository project; createCall flags project])).
  { rewrite (reconcile_lookup w flags args project _ _
               (lookup_noUsableRecord flags _ project Hn)).
    cbn [fst snd]. unfold createIfMissing. rewrite Hnoop. cbn [negb].
    rewrite Hc. reflexivity. }
  destruct (create_after_reconcile w flags args _ _ _ _ Hd Hrec)
    as [_ Hcreate].
  assert (Hrun : create w flags args
                 = (Exit err,
                    t ++ [ERepository project; createCall flags project;
                          ELocalRepo])).
  { rewrite Hcreate. unfold bindAndShow. rewrite Hl. unfold after. cbn.
    now rewrite <- app_assoc. }
  split; [exact Hrun |].
  rewrite Hrun. cbn [snd]. rewrite createCalls_app.
  destruct (desiredProject_reads w args) as [_ H0].
  rewrite Hd in H0. cbn [snd] in H0. now rewrite H0.
Qed.

Lemma create_local_repo_error_after_creation_witness :
  create (G := Ref.github) noLocalRepo Ref.noFlags
    (mkArgs ["myorg/widgets"] false)
  = (Exit "fatal: not a git repository",
     [EGitDir; EDefaultHost; ERepository Ref.widgets;
      ECreateRepository Ref.widgets "" "" false; ELocalRepo]).
Proof.
  apply (create_local_repo_error_after_creation (G := Ref.github)
           noLocalRepo Ref.noFlags (mkArgs ["myorg/widgets"] false)
           Ref.widgets (Repository.mk "myorg/widgets" false)
           [EGitDir; EDefaultHost] "fatal: not a git repository");
    try reflexivity.
  left. exists "Not Found". reflexivity.
Defined.

(** ** The lookup, and running again *)

(** X15.  The hosting service is asked for a repository exactly once in a
    run that gets as far as the desired project, and for that project;
    a run that ends before does not ask at all. *)
Theorem create_looks_up_desired_once {G : Github} (w : World)
    (flags : Flags) (args : Args) :
  filter isRepository (snd (create w flags args))
  = match fst (desiredProject w args) with
    | Ok project => [ERepository project]
    | Exit _ => []
    end.
Proof.
  pose proof (create_run w flags args) as Hrun.
  destruct (create w flags args) as [r t].
  inversion Hrun as [e t0 Hd HD | p e t0 t1 Hd HD HR
                     | p final r' t0 t1 t2 Hd HD Hr HR HS]; subst; clear Hrun;
    rewrite Hd; cbn [fst snd];
    run_cases; unfold createCall, showEvents; cbn; reflexivity.
Qed.

(** X16.  Running again after a creation: when the lookup now returns the
    record that was created, with the visibility that was asked for, and
    the project of that record is [SameAs] the desired one, the second run
    reuses it (the visibility check cannot fail), makes no create call and
    ends with the same final project as the first. *)
Theorem reconcile_again_reuses {G : Github} (w w' : World) (flags : Flags)
    (args : Args) (project : Project.t) (repo repo' : Repository.t) :
  noUsableRecord (github_NewClient w (Project.Host project)) project ->
  Noop args = false ->
  CreateRepository (github_NewClient w (Project.Host project)) project
    (flagCreateDescription flags) (flagCreateHomepage flags)
    (flagCreatePrivate flags) = inl repo ->
  Repository (github_NewClient w' (Project.Host project)) project
  = inl repo' ->
  Repository.FullName repo' = Repository.FullName repo ->
  Repository.Private repo' = flagCreatePrivate flags ->
  SameAs (projectOf repo project) project = true ->
  fst (reconcile w flags args project) = Ok (projectOf repo project)
  /\ reconcile w' flags args project
     = (Ok (projectOf repo project),
        [ERepository project; EUiError "Existing repository detected"]).
Proof.
  intros Hn Hnoop Hc Hr Hname Hpriv Hs. split.
  - rewrite (reconcile_lookup w flags args project _ _
               (lookup_noUsableRecord flags _ project Hn)).
    cbn [fst snd]. unfold createIfMissing. rewrite Hnoop. cbn [negb].
    rewrite Hc. reflexivity.
  - assert (Hp : projectOf repo' project = projectOf repo project)
      by (unfold projectOf; now rewrite Hname).
    rewrite <- Hp in *.
    rewrite (reconcile_lookup w' flags args project _ _
               (lookup_reuse flags _ project repo' Hr Hs
                  ltac:(rewrite Hpriv; apply andb_negb_l))).
    reflexivity.
Qed.

Lemma reconcile_again_reuses_witness :
  reconcile (G := Ref.github)
    (Ref.world [Repository.mk "myorg/widgets" true] []) Ref.privateFlag
    (mkArgs ["myorg/widgets"] false) Ref.widgets
  = (Ok Ref.widgets,
     [ERepository Ref.widgets; EUiError "Existing repository detected"]).
Proof.
  apply (reconcile_again_reuses (G := Ref.github) (Ref.world [] [])
           (Ref.world [Repository.mk "myorg/widgets" true] [])
           Ref.privateFlag (mkArgs ["myorg/widgets"] false) Ref.widgets
           (Repository.mk "myorg/widgets" true)
           (Repository.mk "myorg/widgets" true)); try reflexivity.
  left. exists "Not Found". reflexivity.
Defined.
